(** * Phone usage billing: a shallow embedding of [main.py] *)

From Stdlib Require Import ZArith List Bool String Ascii Lia Permutation.
From Stdlib Require Import Floats.SpecFloat.
Import ListNotations.
Open Scope Z_scope.

(** ** Python exceptions raised by the code *)

Inductive exn : Type :=
| IndexError                       (* [phone_number[0]] on an empty string *)
| AssertionError (msg : string)    (* the [assert] of [CustomerBill.update] *)
| InvalidOperation                 (* [Decimal.quantize] of a non-finite value *)
| ValueError.                      (* [math.ceil] of a non-finite float *)

Inductive result (A : Type) : Type :=
| Ok (a : A)
| Raise (e : exn).
Arguments Ok {A} a.
Arguments Raise {A} e.

Definition bind {A B} (m : result A) (k : A -> result B) : result B :=
  match m with
  | Ok a => k a
  | Raise e => Raise e
  end.

Notation "x <- m ;; k" := (bind m (fun x => k))
  (at level 61, m at next level, right associativity).

(** ** Python [float]: IEEE-754 binary64, round to nearest even *)

Module PyFloat.

Definition prec : Z := 53.
Definition emax : Z := 1024.

Definition t := spec_float.

(** [float(n)] for a Python [int] [n]: correctly rounded. *)
Definition of_int (n : Z) : t := binary_normalize prec emax n 0 false.

Definition mul (x y : t) : t := SFmul prec emax x y.
Definition add (x y : t) : t := SFadd prec emax x y.
Definition div (x y : t) : t := SFdiv prec emax x y.

(** A decimal literal [num / den] is read as the nearest double, which is
    the correctly rounded quotient of the two (exact) integers. *)
Definition lit (num den : Z) : t := div (of_int num) (of_int den).

(** [int / int] (true division) is correctly rounded. *)
Definition int_truediv (a b : Z) : t := div (of_int a) (of_int b).

(** [math.ceil(x)]: the least integer not below the exact value of [x]. *)
Definition ceil (x : t) : result Z :=
  match x with
  | S754_zero _ => Ok 0
  | S754_finite s m e =>
      let n := if s then Z.neg m else Z.pos m in
      if Z.leb 0 e then Ok (n * 2 ^ e)
      else Ok (- ((- n) / 2 ^ (- e)))
  | S754_infinity _ => Raise ValueError
  | S754_nan => Raise ValueError
  end.

End PyFloat.

(** ** Python [Decimal], restricted to what the code builds *)

Module PyDecimal.

(** Round [num / den] (with [den > 0]) to an integer, ties to even: the
    default context rounding [ROUND_HALF_EVEN]. *)
Definition round_half_even (num den : Z) : Z :=
  let q := num / den in
  let r := num mod den in
  match Z.compare (2 * r) den with
  | Lt => q
  | Gt => q + 1
  | Eq => if Z.even q then q else q + 1
  end.

(** [Decimal(x).quantize(Decimal('1.00'))] for a float [x]: [Decimal(x)] is
    the exact binary value of [x]; quantizing to exponent -2 yields an
    amount in hundredths, returned here as an integer number of cents. *)
Definition quantize_float_cents (x : PyFloat.t) : result Z :=
  match x with
  | S754_zero _ => Ok 0
  | S754_finite s m e =>
      let n := if s then Z.neg m else Z.pos m in
      if Z.leb 0 e then Ok (n * 100 * 2 ^ e)
      else Ok (round_half_even (n * 100) (2 ^ (- e)))
  | S754_infinity _ => Raise InvalidOperation
  | S754_nan => Raise InvalidOperation
  end.

End PyDecimal.

(** ** Python [datetime] (naive) and [timedelta] *)

Module PyDatetime.

(** A parsed [datetime.datetime]; [fromisoformat] is abstracted: the
    model starts from the fields it produces. *)
Record datetime : Type := mk_datetime {
  year : Z; month : Z; day : Z;
  hour : Z; minute : Z; second : Z; microsecond : Z
}.

Record timedelta : Type := mk_timedelta {
  td_days : Z; td_seconds : Z; td_microseconds : Z
}.

Definition _is_leap (y : Z) : bool :=
  Z.eqb (y mod 4) 0 && (negb (Z.eqb (y mod 100) 0) || Z.eqb (y mod 400) 0).

Definition _DAYS_BEFORE_MONTH (m : Z) : Z :=
  nth (Z.to_nat m) [-1; 0; 31; 59; 90; 120; 151; 181; 212; 243; 273; 304; 334] 0.

Definition _days_before_year (y : Z) : Z :=
  let y1 := y - 1 in y1 * 365 + y1 / 4 - y1 / 100 + y1 / 400.

Definition _days_before_month (y m : Z) : Z :=
  _DAYS_BEFORE_MONTH m + (if Z.ltb 2 m && _is_leap y then 1 else 0).

Definition _ymd2ord (y m d : Z) : Z :=
  _days_before_year y + _days_before_month y m + d.

Definition toordinal (dt : datetime) : Z :=
  _ymd2ord (year dt) (month dt) (day dt).

(** [timedelta(days, seconds, microseconds)] with integer arguments: the
    [divmod] normalisation of [timedelta.__new__]. *)
Definition make_timedelta (days seconds microseconds : Z) : timedelta :=
  let d := days in
  (* days, seconds = divmod(seconds, 24*3600); d += days; s += seconds *)
  let d := d + seconds / 86400 in
  let s := seconds mod 86400 in
  (* seconds, microseconds = divmod(microseconds, 1000000) *)
  let sec2 := microseconds / 1000000 in
  let us := microseconds mod 1000000 in
  (* days, seconds = divmod(seconds, 24*3600); d += days; s += seconds *)
  let d := d + sec2 / 86400 in
  let s := s + sec2 mod 86400 in
  (* seconds, us = divmod(microseconds, 1000000); s += seconds *)
  let s := s + us / 1000000 in
  let us := us mod 1000000 in
  (* days, s = divmod(s, 24*3600); d += days *)
  let d := d + s / 86400 in
  let s := s mod 86400 in
  mk_timedelta d s us.

(** [datetime.__sub__] for two naive datetimes. *)
Definition sub (self other : datetime) : timedelta :=
  let days1 := toordinal self in
  let days2 := toordinal other in
  let secs1 := second self + minute self * 60 + hour self * 3600 in
  let secs2 := second other + minute other * 60 + hour other * 3600 in
  make_timedelta (days1 - days2) (secs1 - secs2)
                 (microsecond self - microsecond other).

End PyDatetime.

(** ** Python [str] for phone numbers: a list of characters *)

Definition pystr := list ascii.

(** [s.lstrip("+")] *)
Fixpoint lstrip_plus (s : pystr) : pystr :=
  match s with
  | c :: t => if ascii_dec c "+"%char then lstrip_plus t else s
  | [] => []
  end.

(** [s.strip("+")]: drops every ['+'] at both ends. *)
Definition strip_plus (s : pystr) : pystr :=
  rev (lstrip_plus (rev (lstrip_plus s))).

(** [s[i]] for [0 <= i]: [IndexError] past the end; a one-character string. *)
Definition py_index (s : pystr) (i : nat) : result pystr :=
  match nth_error s i with
  | Some c => Ok [c]
  | None => Raise IndexError
  end.

(** [s[i:j]] and [s[i:]] for [0 <= i <= j]: clipped, never an error. *)
Definition py_slice (s : pystr) (i j : nat) : pystr := firstn (j - i) (skipn i s).
Definition py_slice_from (s : pystr) (i : nat) : pystr := skipn i s.

Definition str_neq (a b : pystr) : bool :=
  if list_eq_dec ascii_dec a b then false else true.

(** ** [class PhoneNumber] *)

Record PhoneNumber : Type := mk_PhoneNumber {
  country_code : pystr;
  area_code : pystr;
  number : pystr
}.

(** [PhoneNumber.__init__] *)
Definition PhoneNumber_init (phone_number : pystr) : result PhoneNumber :=
  let phone_number := strip_plus phone_number in
  country_code <- py_index phone_number 0 ;;
  let area_code := py_slice phone_number 1 4 in
  let number := py_slice_from phone_number 4 in
  Ok (mk_PhoneNumber country_code area_code number).

(** ** [class CallInfo] *)

(** The three values [get_call_type] returns; the [else] branches of
    [set_call_metrics] and [calculate_charge_for_call] raising
    [NotImplementedError] are unreachable and left out. *)
Inductive call_type : Type := international | domestic | local.

Definition call_type_eqb (a b : call_type) : bool :=
  match a, b with
  | international, international | domestic, domestic | local, local => true
  | _, _ => false
  end.

(** [call_start] and [call_stop] hold the values [datetime.fromisoformat]
    returns for the two timestamp strings: the model covers calls whose
    timestamps parse, and never the [ValueError] raised on one that does
    not. *)
Record CallInfo : Type := mk_CallInfo {
  account_number : string;
  origination_number : pystr;
  termination_number : pystr;
  call_start : PyDatetime.datetime;
  call_stop : PyDatetime.datetime
}.

(** [get_call_duration]: [math.ceil(difference.seconds / 60)] *)
Definition get_call_duration (self : CallInfo) : result Z :=
  let start := call_start self in
  let stop := call_stop self in
  let difference := PyDatetime.sub stop start in
  PyFloat.ceil (PyFloat.int_truediv (PyDatetime.td_seconds difference) 60).

(** [get_call_type] *)
Definition get_call_type (self : CallInfo) : result call_type :=
  origin_number <- PhoneNumber_init (origination_number self) ;;
  termination_number <- PhoneNumber_init (termination_number self) ;;
  if str_neq (country_code origin_number) (country_code termination_number)
  then Ok international
  else if str_neq (area_code origin_number) (area_code termination_number)
  then Ok domestic
  else Ok local.

(** The body of [calculate_charge_for_call] once [duration] and
    [call_type] are known: [base] is a Python [int], [rate] a [float]
    literal, [base + rate * duration] is float arithmetic, and the result is
    converted exactly by [Decimal] and quantized to hundredths. *)
Definition charge_of (ct : call_type) (duration : Z) : result Z :=
  let '(base, rate) :=
    match ct with
    | international => (1, PyFloat.lit 2 10)     (* base = 1; rate = .2 *)
    | domestic => (0, PyFloat.lit 1 10)          (* base = 0; rate = .1 *)
    | local => (0, PyFloat.lit 2 100)            (* base = 0; rate = .02 *)
    end in
  PyDecimal.quantize_float_cents
    (PyFloat.add (PyFloat.of_int base) (PyFloat.mul rate (PyFloat.of_int duration))).

(** [calculate_charge_for_call]: an amount in cents. *)
Definition calculate_charge_for_call (self : CallInfo) : result Z :=
  duration <- get_call_duration self ;;
  call_type <- get_call_type self ;;
  charge_of call_type duration.

(** ** [class CustomerBill] *)

Module CustomerBill.

(** [call_info.account_number], before the bill's own field shadows it. *)
Definition info_account_number (call_info : CallInfo) : string :=
  account_number call_info.

(** [charge] is a [Decimal] quantized to hundredths, kept as cents.  The
    sums formed by [update] stay far below the 28 significant digits of the
    default [Decimal] context, so its additions are exact here. *)
Record t : Type := mk {
  account_number : string;
  minutes_international : Z;
  num_international : Z;
  minutes_domestic : Z;
  num_domestic : Z;
  minutes_local : Z;
  num_local : Z;
  charge : Z
}.

(** The numeric attributes, so that [self.attr += v] is one statement. *)
Inductive attr : Type :=
| a_minutes_international | a_num_international
| a_minutes_domestic | a_num_domestic
| a_minutes_local | a_num_local
| a_charge.

Definition get (a : attr) (b : t) : Z :=
  match a with
  | a_minutes_international => minutes_international b
  | a_num_international => num_international b
  | a_minutes_domestic => minutes_domestic b
  | a_num_domestic => num_domestic b
  | a_minutes_local => minutes_local b
  | a_num_local => num_local b
  | a_charge => charge b
  end.

Definition set (a : attr) (v : Z) (b : t) : t :=
  let '(mk acc mi ni md nd ml nl c) := b in
  match a with
  | a_minutes_international => mk acc v ni md nd ml nl c
  | a_num_international => mk acc mi v md nd ml nl c
  | a_minutes_domestic => mk acc mi ni v nd ml nl c
  | a_num_domestic => mk acc mi ni md v ml nl c
  | a_minutes_local => mk acc mi ni md nd v nl c
  | a_num_local => mk acc mi ni md nd ml v c
  | a_charge => mk acc mi ni md nd ml nl v
  end.

(** Methods run on [self]: a state monad over the bill with Python's
    exceptions; an exception leaves [self] as it was when raised. *)
Definition method (A : Type) : Type := t -> result A * t.

Definition ret {A} (a : A) : method A := fun self => (Ok a, self).

Definition mbind {A B} (m : method A) (k : A -> method B) : method B :=
  fun self =>
    match m self with
    | (Ok a, self') => k a self'
    | (Raise e, self') => (Raise e, self')
    end.

Definition lift {A} (r : result A) : method A := fun self => (r, self).

Definition get_self : method t := fun self => (Ok self, self).

Definition iadd (a : attr) (v : Z) : method unit :=
  fun self => (Ok tt, set a (get a self + v) self).

Definition assert_ (cond : bool) (msg : string) : method unit :=
  fun self => if cond then (Ok tt, self) else (Raise (AssertionError msg), self).

Notation "x <-- m ;; k" := (mbind m (fun x => k))
  (at level 61, m at next level, right associativity).
Notation "m ;;; k" := (mbind m (fun _ => k))
  (at level 61, right associativity).

(** [set_call_metrics] *)
Definition set_call_metrics (call_info : CallInfo) : method unit :=
  duration <-- lift (get_call_duration call_info) ;;
  call_type <-- lift (get_call_type call_info) ;;
  match call_type with
  | international => iadd a_minutes_international duration ;;; iadd a_num_international 1
  | domestic => iadd a_minutes_domestic duration ;;; iadd a_num_domestic 1
  | local => iadd a_minutes_local duration ;;; iadd a_num_local 1
  end.

(** [__init__] *)
Definition init (call_info : CallInfo) : result t :=
  let self := mk (info_account_number call_info) 0 0 0 0 0 0 0 in
  match set_call_metrics call_info self with
  | (Raise e, _) => Raise e
  | (Ok _, self) =>
      c <- calculate_charge_for_call call_info ;;
      Ok (set a_charge c self)
  end.

Definition update_msg (this other : string) : string :=
  "Cannot combine bills for different accounts! " ++
  "This account: " ++ this ++ ", Other account: " ++ other.

(** [update]; [new_call_info.charge.quantize(Decimal('1.00'))] is the
    charge itself, already in hundredths. *)
Definition update (new_call_info : t) : method unit :=
  self <-- get_self ;;
  let msg := update_msg (account_number self) (account_number new_call_info) in
  assert_ (String.eqb (account_number self) (account_number new_call_info)) msg ;;;
  iadd a_minutes_international (minutes_international new_call_info) ;;;
  iadd a_minutes_domestic (minutes_domestic new_call_info) ;;;
  iadd a_minutes_local (minutes_local new_call_info) ;;;
  iadd a_num_international (num_international new_call_info) ;;;
  iadd a_num_domestic (num_domestic new_call_info) ;;;
  iadd a_num_local (num_local new_call_info) ;;;
  iadd a_charge (charge new_call_info).

End CustomerBill.

(** ** [calculate_bills] *)

(** A Python [dict] keyed by account number, in insertion order. *)
Definition dict := list (string * CustomerBill.t).

(** [d.get(k)] *)
Fixpoint dict_get (d : dict) (k : string) : option CustomerBill.t :=
  match d with
  | [] => None
  | (k', v) :: d' => if String.eqb k k' then Some v else dict_get d' k
  end.

(** [d[k] = v]: an existing key keeps its place, a new one goes last. *)
Fixpoint dict_setitem (d : dict) (k : string) (v : CustomerBill.t) : dict :=
  match d with
  | [] => [(k, v)]
  | (k', v') :: d' =>
      if String.eqb k k' then (k', v) :: d' else (k', v') :: dict_setitem d' k v
  end.

(** The [for info in call_infos] loop.  The bill stored in the dict is the
    only reference to it, so updating it in place is storing the updated
    bill under the same key. *)
Fixpoint calculate_bills_loop (m : dict) (call_infos : list CallInfo) : result dict :=
  match call_infos with
  | [] => Ok m
  | info :: rest =>
      bill <- CustomerBill.init info ;;
      match dict_get m (account_number info) with
      | None => calculate_bills_loop (dict_setitem m (account_number info) bill) rest
      | Some existing =>
          match CustomerBill.update bill existing with
          | (Ok _, existing') =>
              calculate_bills_loop (dict_setitem m (account_number info) existing') rest
          | (Raise e, _) => Raise e
          end
      end
  end.

(** [calculate_bills]: [list(account_number_to_customer_bill_map.values())] *)
Definition calculate_bills (call_infos : list CallInfo) : result (list CustomerBill.t) :=
  m <- calculate_bills_loop [] call_infos ;;
  Ok (map snd m).

(** ** Reference definitions following the spec's wording *)

Module SpecWords.

(** Account numbers in order of first appearance, each once. *)
Fixpoint first_seen_from (seen : list string) (l : list string) : list string :=
  match l with
  | [] => []
  | a :: r =>
      if existsb (String.eqb a) seen then first_seen_from seen r
      else a :: first_seen_from (seen ++ [a]) r
  end.

Definition first_seen (l : list string) : list string := first_seen_from [] l.

(** The rate table in exact decimals, as cents: base and per-minute rate. *)
Definition base_cents (ct : call_type) : Z :=
  match ct with international => 100 | domestic => 0 | local => 0 end.
Definition rate_cents (ct : call_type) : Z :=
  match ct with international => 20 | domestic => 10 | local => 2 end.

(** [base + rate * duration] in exact decimal arithmetic; with the rates
    in hundredths the value already has two decimals, so rounding it to
    two places leaves it unchanged. *)
Definition exact_charge (ct : call_type) (duration : Z) : Z :=
  base_cents ct + rate_cents ct * duration.

(** Elapsed wall-clock time from [start] to [stop] in microseconds. *)
Definition elapsed_microseconds (start stop : PyDatetime.datetime) : Z :=
  (PyDatetime.toordinal stop - PyDatetime.toordinal start) * 86400000000
  + ((PyDatetime.second stop + PyDatetime.minute stop * 60 + PyDatetime.hour stop * 3600)
     - (PyDatetime.second start + PyDatetime.minute start * 60 + PyDatetime.hour start * 3600))
    * 1000000
  + (PyDatetime.microsecond stop - PyDatetime.microsecond start).

(** Whole elapsed seconds modulo one day. *)
Definition seconds_within_day (start stop : PyDatetime.datetime) : Z :=
  (elapsed_microseconds start stop / 1000000) mod 86400.

(** Integer ceiling of [a / 60]. *)
Definition ceil_div60 (a : Z) : Z := (a + 59) / 60.

(** Parsing that strips exactly one leading ['+']. *)
Definition PhoneNumber_init_one_plus (phone_number : pystr) : result PhoneNumber :=
  let phone_number :=
    match phone_number with
    | c :: r => if ascii_dec c "+"%char then r else phone_number
    | [] => []
    end in
  country_code <- py_index phone_number 0 ;;
  Ok (mk_PhoneNumber country_code (py_slice phone_number 1 4)
                     (py_slice_from phone_number 4)).

(** Per-call contributions to a bill. *)
Definition call_minutes (ct : call_type) (ci : CallInfo) : Z :=
  match get_call_duration ci, get_call_type ci with
  | Ok d, Ok ct' => if call_type_eqb ct ct' then d else 0
  | _, _ => 0
  end.

Definition call_count (ct : call_type) (ci : CallInfo) : Z :=
  match get_call_type ci with
  | Ok ct' => if call_type_eqb ct ct' then 1 else 0
  | Raise _ => 0
  end.

Definition call_charge (ci : CallInfo) : Z :=
  match calculate_charge_for_call ci with Ok c => c | Raise _ => 0 end.

Definition sum (f : CallInfo -> Z) (l : list CallInfo) : Z :=
  fold_right (fun ci acc => f ci + acc) 0 l.

End SpecWords.

(** ** Finite range checks, evaluated by [vm_compute] *)

Fixpoint check_range (k : nat) (lo : Z) (f : Z -> bool) : bool :=
  match k with
  | O => true
  | S k' => f lo && check_range k' (lo + 1) f
  end.

(** [math.ceil(s / 60)] agrees with the integer ceiling. *)
Definition duration_ok (s : Z) : bool :=
  match PyFloat.ceil (PyFloat.int_truediv s 60) with
  | Ok v => Z.eqb v ((s + 59) / 60)
  | Raise _ => false
  end.

(** The float charge agrees with the exact decimal charge. *)
Definition charge_ok (d : Z) : bool :=
  forallb (fun ct =>
    match charge_of ct d with
    | Ok c => Z.eqb c (SpecWords.exact_charge ct d)
    | Raise _ => false
    end) [international; domestic; local].

(** ** [run_billing]: reading the input table and writing the output *)

Module RunBilling.

(** Characters for which [str.isspace] holds, among code points 0-255. *)
Definition is_space (c : ascii) : bool :=
  let n := nat_of_ascii c in
  (Nat.leb 9 n && Nat.leb n 13) || (Nat.leb 28 n && Nat.leb n 32) ||
  Nat.eqb n 133 || Nat.eqb n 160.

Fixpoint lstrip_space (s : pystr) : pystr :=
  match s with
  | c :: t => if is_space c then lstrip_space t else s
  | [] => []
  end.

(** [s.strip()] *)
Definition py_strip (s : pystr) : pystr := rev (lstrip_space (rev (lstrip_space s))).

(** [s.split(sep)] for a one-character separator. *)
Fixpoint split_on (sep : ascii) (s : pystr) : list pystr :=
  match s with
  | [] => [[]]
  | c :: r =>
      let rest := split_on sep r in
      if ascii_dec c sep then [] :: rest
      else match rest with
           | [] => [[c]]
           | w :: ws => (c :: w) :: ws
           end
  end.

(** [f.readlines()] on the (newline-translated) text: every line keeps its
    ["\n"]; the last line may lack one. *)
Fixpoint readlines (s : pystr) : list pystr :=
  match s with
  | [] => []
  | c :: r =>
      if ascii_dec c "010"%char then [c] :: readlines r
      else match readlines r with
           | [] => [[c]]
           | l :: ls => (c :: l) :: ls
           end
  end.

(** [values[i]] on a list: [IndexError] past the end. *)
Definition list_index {A} (l : list A) (i : nat) : result A :=
  match nth_error l i with
  | Some x => Ok x
  | None => Raise IndexError
  end.

(** The five strings [run_billing] passes to [CallInfo(...)]. *)
Record row : Type := mk_row {
  r_account_number : pystr;
  r_origination_number : pystr;
  r_termination_number : pystr;
  r_call_start : pystr;
  r_call_stop : pystr
}.

(** The body of the [for row in rows] loop. *)
Definition parse_row (line : pystr) : result row :=
  let values := split_on ","%char line in
  v0 <- list_index values 0 ;;
  v1 <- list_index values 1 ;;
  v2 <- list_index values 2 ;;
  v3 <- list_index values 3 ;;
  v4 <- list_index values 4 ;;
  Ok (mk_row v0 v1 v2 v3 (py_strip v4)).

Fixpoint parse_rows (rows : list pystr) : result (list row) :=
  match rows with
  | [] => Ok []
  | r :: rs => x <- parse_row r ;; xs <- parse_rows rs ;; Ok (x :: xs)
  end.

(** Reading side of [run_billing]: [lines[1:]] then one row per line. *)
Definition read_rows (text : pystr) : result (list row) :=
  let lines := readlines text in
  let rows := skipn 1 lines in
  parse_rows rows.

(** [str(n)] for a Python [int]. *)
Fixpoint digits_rev (fuel : nat) (n : Z) : pystr :=
  match fuel with
  | O => []
  | S f =>
      let d := ascii_of_nat (48 + Z.to_nat (n mod 10)) in
      if Z.ltb n 10 then [d] else d :: digits_rev f (n / 10)
  end.

Definition str_nat (n : Z) : pystr := rev (digits_rev (S (Z.to_nat (Z.log2 n))) n).

Definition str_int (n : Z) : pystr :=
  if Z.ltb n 0 then "-"%char :: str_nat (- n) else str_nat n.

(** [str(d)] for a [Decimal] [d] with exponent -2 and integer coefficient
    [c]: [leftdigits = len(digits) - 2]; no exponent notation arises. *)
Definition str_decimal_cents (c : Z) : pystr :=
  let digits := str_nat (Z.abs c) in
  let sign := if Z.ltb c 0 then ["-"%char] else [] in
  let dotplace := (Z.of_nat (List.length digits) - 2)%Z in
  if Z.leb dotplace 0 then
    sign ++ ["0"; "."]%char ++ repeat "0"%char (Z.to_nat (- dotplace)) ++ digits
  else
    sign ++ firstn (Z.to_nat dotplace) digits ++ ["."%char] ++
    skipn (Z.to_nat dotplace) digits.

Definition comma : pystr := [","%char].

(** [CustomerBill.__repr__] *)
Definition bill_repr (b : CustomerBill.t) : pystr :=
  list_ascii_of_string (CustomerBill.account_number b) ++ comma ++
  str_int (CustomerBill.minutes_international b) ++ comma ++
  str_int (CustomerBill.num_international b) ++ comma ++
  str_int (CustomerBill.minutes_domestic b) ++ comma ++
  str_int (CustomerBill.num_domestic b) ++ comma ++
  str_int (CustomerBill.minutes_local b) ++ comma ++
  str_int (CustomerBill.num_local b) ++ comma ++
  str_decimal_cents (CustomerBill.charge b).

Definition headers : pystr :=
  list_ascii_of_string
    "account_number,minutes_international,number_international,minutes_domestic,number_domestic,minutes_local,number_local,charge" ++ ["010"%char].

(** Writing side of [run_billing]: the text of [output.csv]. *)
Definition write_output (bills : list CustomerBill.t) : pystr :=
  headers ++ List.concat (map (fun b => bill_repr b ++ ["010"%char]) bills).

End RunBilling.

Import RunBilling.

(** ** Derived definitions used by the proofs *)

(** The same call with its two endpoints exchanged. *)
Definition swap_endpoints (ci : CallInfo) : CallInfo :=
  mk_CallInfo (account_number ci) (termination_number ci) (origination_number ci)
              (call_start ci) (call_stop ci).

(** Field-wise sum of two bills, as [update] leaves [self]. *)
Definition merged_bills (self other : CustomerBill.t) : CustomerBill.t :=
  CustomerBill.mk (CustomerBill.account_number self)
    (CustomerBill.minutes_international self + CustomerBill.minutes_international other)
    (CustomerBill.num_international self + CustomerBill.num_international other)
    (CustomerBill.minutes_domestic self + CustomerBill.minutes_domestic other)
    (CustomerBill.num_domestic self + CustomerBill.num_domestic other)
    (CustomerBill.minutes_local self + CustomerBill.minutes_local other)
    (CustomerBill.num_local self + CustomerBill.num_local other)
    (CustomerBill.charge self + CustomerBill.charge other).

(** The bill [CustomerBill(ci)] builds, field by field. *)
Definition bill_of_call (ci : CallInfo) : CustomerBill.t :=
  CustomerBill.mk (account_number ci)
    (SpecWords.call_minutes international ci) (SpecWords.call_count international ci)
    (SpecWords.call_minutes domestic ci) (SpecWords.call_count domestic ci)
    (SpecWords.call_minutes local ci) (SpecWords.call_count local ci)
    (SpecWords.call_charge ci).

(** Every bill stored in the dict is filed under its own account number. *)
Definition dict_inv (m : dict) : Prop :=
  forall k v, In (k, v) m -> CustomerBill.account_number v = k.

(** Folding the calls of [l] into [b] one [update] at a time. *)
Definition add_calls (b : CustomerBill.t) (l : list CallInfo) : CustomerBill.t :=
  fold_left (fun acc ci => merged_bills acc (bill_of_call ci)) l b.

(** The calls of account [a], in input order. *)
Definition calls_of (a : string) (l : list CallInfo) : list CallInfo :=
  filter (fun ci => String.eqb (account_number ci) a) l.

(** A bill of account [a] with every counter at zero. *)
Definition zero_bill (a : string) : CustomerBill.t := CustomerBill.mk a 0 0 0 0 0 0 0.

(** The bill of account [a]: each field the sum of its calls' contributions. *)
Definition bill_sums (a : string) (l : list CallInfo) : CustomerBill.t :=
  CustomerBill.mk a
    (SpecWords.sum (SpecWords.call_minutes international) (calls_of a l))
    (SpecWords.sum (SpecWords.call_count international) (calls_of a l))
    (SpecWords.sum (SpecWords.call_minutes domestic) (calls_of a l))
    (SpecWords.sum (SpecWords.call_count domestic) (calls_of a l))
    (SpecWords.sum (SpecWords.call_minutes local) (calls_of a l))
    (SpecWords.sum (SpecWords.call_count local) (calls_of a l))
    (SpecWords.sum SpecWords.call_charge (calls_of a l)).

(** The sum of one numeric field over a list of bills. *)
Definition sum_bills (f : CustomerBill.t -> Z) (bills : list CustomerBill.t) : Z :=
  fold_right (fun b acc => f b + acc) 0 bills.

(** The attributes [set_call_metrics] increments for each call type. *)
Definition minutes_attr (ct : call_type) : CustomerBill.attr :=
  match ct with
  | international => CustomerBill.a_minutes_international
  | domestic => CustomerBill.a_minutes_domestic
  | local => CustomerBill.a_minutes_local
  end.

Definition num_attr (ct : call_type) : CustomerBill.attr :=
  match ct with
  | international => CustomerBill.a_num_international
  | domestic => CustomerBill.a_num_domestic
  | local => CustomerBill.a_num_local
  end.

(** Time of day of a [datetime], in microseconds since midnight. *)
Definition time_of_day_us (dt : PyDatetime.datetime) : Z :=
  ((PyDatetime.hour dt * 60 + PyDatetime.minute dt) * 60 + PyDatetime.second dt) * 1000000
  + PyDatetime.microsecond dt.

(** The newline character. *)
Definition nl : ascii := "010"%char.

(** A data line of the input table, without its newline. *)
Definition join_row (r : row) : pystr :=
  r_account_number r ++ ","%char :: r_origination_number r ++ ","%char ::
  r_termination_number r ++ ","%char :: r_call_start r ++ ","%char :: r_call_stop r.

(** An input file: a header line, then one line per row. *)
Definition csv_text (header : pystr) (rows : list row) : pystr :=
  header ++ nl :: List.concat (map (fun r => join_row r ++ [nl]) rows).

(** A field holding neither a comma nor a newline. *)
Definition plain_field (s : pystr) : Prop := ~ In ","%char s /\ ~ In nl s.

Definition plain_row (r : row) : Prop :=
  plain_field (r_account_number r) /\ plain_field (r_origination_number r) /\
  plain_field (r_termination_number r) /\ plain_field (r_call_start r) /\
  plain_field (r_call_stop r) /\ py_strip (r_call_stop r) = r_call_stop r.

(** An ASCII decimal digit. *)
Definition is_digit (c : ascii) : bool :=
  Nat.leb 48 (nat_of_ascii c) && Nat.leb (nat_of_ascii c) 57.

Definition no_sep (c : ascii) : Prop := c <> ","%char /\ c <> nl.

(** [headers] without its newline. *)
Definition headers_line : pystr :=
  list_ascii_of_string
    "account_number,minutes_international,number_international,minutes_domestic,number_domestic,minutes_local,number_local,charge".

(** The number a string of decimal digits denotes. *)
Definition digits_value (s : pystr) : Z :=
  fold_left (fun acc c => acc * 10 + Z.of_nat (nat_of_ascii c - 48)) s 0.

(** ** The fixtures of [test_main.py] *)

Module Fixtures.

Definition start := PyDatetime.mk_datetime 2022 6 24 15 31 11 696409.
Definition stop := PyDatetime.mk_datetime 2022 6 24 15 33 11 696409.
Definition stop' := PyDatetime.mk_datetime 2022 6 24 15 33 12 696409.

Definition international_call_info : CallInfo :=
  mk_CallInfo "1" (list_ascii_of_string "+15555555555")
    (list_ascii_of_string "+26666666666") start stop.
Definition domestic_call_info : CallInfo :=
  mk_CallInfo "1" (list_ascii_of_string "+15555555555")
    (list_ascii_of_string "+16666666666") start stop.
Definition local_call_info : CallInfo :=
  mk_CallInfo "1" (list_ascii_of_string "+15555555555")
    (list_ascii_of_string "+15556666666") start stop.
Definition other_account_call_info : CallInfo :=
  mk_CallInfo "2" (list_ascii_of_string "+15555555555")
    (list_ascii_of_string "+16666666666") start stop.

End Fixtures.

Import Fixtures.

(** ** Further sample inputs *)

(** The call of [international_call_info] with other dates. *)
Definition next_day_call_info : CallInfo :=
  mk_CallInfo "1" (list_ascii_of_string "+15555555555")
    (list_ascii_of_string "+26666666666")
    (PyDatetime.mk_datetime 2021 12 31 15 31 11 696409)
    (PyDatetime.mk_datetime 2023 1 1 15 33 11 696409).

(** A call lasting exactly one day. *)
Definition day_long_call_info : CallInfo :=
  mk_CallInfo "1" (list_ascii_of_string "+15555555555")
    (list_ascii_of_string "+15556666666") start
    (PyDatetime.mk_datetime 2022 6 25 15 31 11 696409).

(** A call whose stop time is 30 seconds before its start time. *)
Definition backwards_call_info : CallInfo :=
  mk_CallInfo "1" (list_ascii_of_string "+15555555555")
    (list_ascii_of_string "+15556666666") start
    (PyDatetime.mk_datetime 2022 6 24 15 30 41 696409).

(** Numbers that agree with [international_call_info]'s on their first four
    digits only. *)
Definition other_subscriber_call_info : CallInfo :=
  mk_CallInfo "1" (list_ascii_of_string "+15551234")
    (list_ascii_of_string "++2666+") start stop.

Definition sample_row : row :=
  mk_row (list_ascii_of_string "1") (list_ascii_of_string "+15555555555")
    (list_ascii_of_string "+16666666666")
    (list_ascii_of_string "2022-06-24T15:31:11")
    (list_ascii_of_string "2022-06-24T15:33:11").

Definition sample_header : pystr :=
  list_ascii_of_string "account_number,origination_number".

Definition sample_bill : CustomerBill.t := CustomerBill.mk "1" 2 1 0 0 0 0 140.

Example test_get_call_duration_no_rounding :
  get_call_duration international_call_info = Ok 2.
Proof. vm_compute. reflexivity. Qed.

Example test_get_call_duration_round_up :
  get_call_duration (mk_CallInfo "1" (list_ascii_of_string "+15555555555")
    (list_ascii_of_string "+16666666666") start stop') = Ok 3.
Proof. vm_compute. reflexivity. Qed.

Example test_get_call_types :
  get_call_type international_call_info = Ok international /\
  get_call_type domestic_call_info = Ok domestic /\
  get_call_type local_call_info = Ok local.
Proof. vm_compute. auto. Qed.

Example test_calculate_charges :
  calculate_charge_for_call international_call_info = Ok 140 /\
  calculate_charge_for_call domestic_call_info = Ok 20 /\
  calculate_charge_for_call local_call_info = Ok 4.
Proof. vm_compute. auto. Qed.

Example test_calculate_multiple_bills_for_multiple_accounts :
  calculate_bills [international_call_info; domestic_call_info; other_account_call_info]
  = Ok [CustomerBill.mk "1" 2 1 2 1 0 0 160; CustomerBill.mk "2" 0 0 2 1 0 0 20].
Proof. vm_compute. reflexivity. Qed.

(** ** Evaluated range facts *)

Lemma check_range_sound (k : nat) : forall lo f,
  check_range k lo f = true -> forall s, lo <= s < lo + Z.of_nat k -> f s = true.
Proof.
  induction k as [|k IH]; intros lo f H s Hs; simpl in *.
  - lia.
  - apply andb_prop in H as [H0 H1].
    destruct (Z.eq_dec s lo) as [->|Hne]; [exact H0|].
    apply (IH (lo + 1) f H1); lia.
Qed.

Lemma duration_range_checked : check_range (Z.to_nat 86400) 0 duration_ok = true.
Proof. vm_compute. reflexivity. Qed.

Lemma charge_range_checked : check_range (Z.to_nat 1441) 0 charge_ok = true.
Proof. vm_compute. reflexivity. Qed.

Lemma ceil_seconds_div_60 (s : Z) :
  0 <= s < 86400 -> PyFloat.ceil (PyFloat.int_truediv s 60) = Ok ((s + 59) / 60).
Proof.
  intros Hs.
  pose proof (check_range_sound _ _ _ duration_range_checked s) as H.
  unfold duration_ok in H.
  destruct (PyFloat.ceil (PyFloat.int_truediv s 60)) as [v|e].
  - apply Z.eqb_eq in H; [congruence | rewrite Z2Nat.id; lia].
  - discriminate H; rewrite Z2Nat.id; lia.
Qed.

Lemma charge_of_exact (ct : call_type) (d : Z) :
  0 <= d <= 1440 -> charge_of ct d = Ok (SpecWords.exact_charge ct d).
Proof.
  intros Hd.
  pose proof (check_range_sound _ _ _ charge_range_checked d) as H.
  assert (Hc : charge_ok d = true) by (apply H; rewrite Z2Nat.id; lia).
  unfold charge_ok in Hc; cbn [forallb] in Hc.
  destruct (charge_of international d) as [c1|] eqn:E1; [|discriminate].
  destruct (charge_of domestic d) as [c2|] eqn:E2; [|rewrite andb_false_r in Hc; discriminate].
  destruct (charge_of local d) as [c3|] eqn:E3; [|rewrite !andb_false_r in Hc; discriminate].
  rewrite !andb_true_r in Hc; apply andb_prop in Hc as [Ha Hb];
    apply andb_prop in Hb as [Hb Hc].
  apply Z.eqb_eq in Ha; apply Z.eqb_eq in Hb; apply Z.eqb_eq in Hc.
  destruct ct; congruence.
Qed.

Lemma lstrip_plus_repeat (a : nat) (x : pystr) :
  (forall c r, x = c :: r -> c <> "+"%char) ->
  lstrip_plus (repeat "+"%char a ++ x) = x.
Proof.
  intros Hx; induction a as [|a IH]; simpl.
  - destruct x as [|c r]; [reflexivity|]; simpl.
    destruct (ascii_dec c "+") as [E|_]; [exfalso; exact (Hx c r eq_refl E)|reflexivity].
  - exact IH.
Qed.

Lemma strip_plus_frame (a b : nat) (c : ascii) (rest : pystr) :
  c <> "+"%char -> last (c :: rest) c <> "+"%char ->
  strip_plus (repeat "+"%char a ++ (c :: rest) ++ repeat "+"%char b) = c :: rest.
Proof.
  intros Hc Hl; unfold strip_plus.
  rewrite lstrip_plus_repeat by (intros c' r' E; inversion E; subst; exact Hc).
  rewrite rev_app_distr, rev_repeat.
  pose proof (app_removelast_last c (l := c :: rest) ltac:(discriminate)) as Hsplit.
  set (core := c :: rest) in *.
  assert (Hrev : rev core = last core c :: rev (removelast core))
    by (rewrite Hsplit at 1; rewrite rev_app_distr; reflexivity).
  rewrite Hrev.
  rewrite lstrip_plus_repeat by (intros c' r' E; inversion E; subst; exact Hl).
  simpl; rewrite rev_involutive; symmetry; exact Hsplit.
Qed.

Lemma PhoneNumber_init_error (s : pystr) (e : exn) :
  PhoneNumber_init s = Raise e -> e = IndexError.
Proof.
  unfold PhoneNumber_init, py_index, bind.
  destruct (nth_error (strip_plus s) 0); congruence.
Qed.

Lemma str_neq_sym (a b : pystr) : str_neq a b = str_neq b a.
Proof.
  unfold str_neq.
  destruct (list_eq_dec ascii_dec a b), (list_eq_dec ascii_dec b a); congruence.
Qed.

Lemma str_neq_true (a b : pystr) : str_neq a b = true <-> a <> b.
Proof. unfold str_neq; destruct (list_eq_dec ascii_dec a b); split; congruence. Qed.

Lemma get_call_type_swap_eq (ci : CallInfo) :
  get_call_type (swap_endpoints ci) = get_call_type ci.
Proof.
  destruct ci as [acc o t st sp]; unfold get_call_type, swap_endpoints, bind; simpl.
  destruct (PhoneNumber_init o) as [po|eo] eqn:Ho;
  destruct (PhoneNumber_init t) as [pt|et] eqn:Ht; try reflexivity.
  - rewrite (str_neq_sym (country_code pt)), (str_neq_sym (area_code pt)); reflexivity.
  - apply PhoneNumber_init_error in Ho; apply PhoneNumber_init_error in Ht; congruence.
Qed.

(** C7 (amended): a stripped form of 1 to 3 characters parses, with the
    area code the characters after the first and an empty subscriber
    number; an empty stripped form raises [IndexError]. *)
Theorem PhoneNumber_init_short (s : pystr) :
  (strip_plus s = [] -> PhoneNumber_init s = Raise IndexError) /\
  (forall c rest, strip_plus s = c :: rest -> (List.length rest < 3)%nat ->
     PhoneNumber_init s = Ok (mk_PhoneNumber [c] rest [])).
Proof.
  split.
  - intros E; unfold PhoneNumber_init; rewrite E; reflexivity.
  - intros c rest E Hlen; unfold PhoneNumber_init; rewrite E.
    destruct rest as [|x [|y [|z r]]]; simpl in Hlen; try lia; reflexivity.
Qed.



Lemma update_same_account (self other : CustomerBill.t) :
  CustomerBill.account_number self = CustomerBill.account_number other ->
  CustomerBill.update other self = (Ok tt, merged_bills self other).
Proof.
  intros E; destruct self, other; simpl in *; subst.
  unfold CustomerBill.update, CustomerBill.mbind, CustomerBill.get_self,
    CustomerBill.assert_, CustomerBill.iadd; simpl.
  rewrite String.eqb_refl; reflexivity.
Qed.

Lemma update_other_account (self other : CustomerBill.t) :
  CustomerBill.account_number self <> CustomerBill.account_number other ->
  CustomerBill.update other self
  = (Raise (AssertionError (CustomerBill.update_msg (CustomerBill.account_number self)
                                                   (CustomerBill.account_number other))), self).
Proof.
  intros E; unfold CustomerBill.update, CustomerBill.mbind, CustomerBill.get_self,
    CustomerBill.assert_.
  apply String.eqb_neq in E; rewrite E; reflexivity.
Qed.

Lemma update_msg_names (a b : string) :
  exists p q, CustomerBill.update_msg a b = (p ++ a ++ q ++ b)%string.
Proof.
  exists "Cannot combine bills for different accounts! This account: "%string,
         ", Other account: "%string.
  reflexivity.
Qed.

Lemma td_seconds_make (D S U : Z) :
  PyDatetime.td_seconds (PyDatetime.make_timedelta D S U) = (S + U / 1000000) mod 86400.
Proof.
  unfold PyDatetime.make_timedelta; simpl.
  assert (H0 : (U mod 1000000) / 1000000 = 0)
    by (apply Z.div_small; apply Z.mod_pos_bound; lia).
  rewrite H0, Z.add_0_r.
  rewrite <- Z.add_mod by lia. reflexivity.
Qed.

Lemma seconds_within_day_eq (start stop : PyDatetime.datetime) :
  SpecWords.seconds_within_day start stop
  = PyDatetime.td_seconds (PyDatetime.sub stop start).
Proof.
  unfold SpecWords.seconds_within_day, SpecWords.elapsed_microseconds, PyDatetime.sub.
  rewrite td_seconds_make.
  set (D := PyDatetime.toordinal stop - PyDatetime.toordinal start).
  set (S := _ - _ : Z).
  set (U := PyDatetime.microsecond stop - PyDatetime.microsecond start).
  replace (D * 86400000000 + S * 1000000 + U) with ((D * 86400 + S) * 1000000 + U) by ring.
  rewrite Z.div_add_l by lia.
  replace (D * 86400 + S + U / 1000000) with ((S + U / 1000000) + D * 86400) by ring.
  rewrite Z.mod_add by lia; reflexivity.
Qed.

Lemma get_call_duration_seconds (ci : CallInfo) :
  get_call_duration ci
  = Ok (SpecWords.ceil_div60 (SpecWords.seconds_within_day (call_start ci) (call_stop ci))).
Proof.
  unfold get_call_duration; rewrite <- seconds_within_day_eq.
  apply ceil_seconds_div_60.
  unfold SpecWords.seconds_within_day; apply Z.mod_pos_bound; lia.
Qed.

Lemma get_call_duration_range (ci : CallInfo) :
  exists d, get_call_duration ci = Ok d /\ 0 <= d <= 1440.
Proof.
  rewrite get_call_duration_seconds; eexists; split; [reflexivity|].
  unfold SpecWords.ceil_div60.
  pose proof (Z.mod_pos_bound
    (SpecWords.elapsed_microseconds (call_start ci) (call_stop ci) / 1000000) 86400
    ltac:(lia)).
  unfold SpecWords.seconds_within_day.
  split; [apply Z.div_pos; lia|].
  apply Z.lt_succ_r, Z.div_lt_upper_bound; lia.
Qed.

(** C4: the duration is the ceiling of the whole elapsed seconds modulo
    86400 divided by 60: a non-negative integer [d] with
    [s <= 60 * d < s + 60]. *)
Theorem get_call_duration_ceiling (ci : CallInfo) :
  let s := SpecWords.seconds_within_day (call_start ci) (call_stop ci) in
  0 <= s < 86400 /\
  get_call_duration ci = Ok (SpecWords.ceil_div60 s) /\
  0 <= SpecWords.ceil_div60 s /\
  s <= 60 * SpecWords.ceil_div60 s < s + 60.
Proof.
  intros s.
  assert (Hs : 0 <= s < 86400)
    by (unfold s, SpecWords.seconds_within_day; apply Z.mod_pos_bound; lia).
  split; [exact Hs|]. split; [apply get_call_duration_seconds|].
  unfold SpecWords.ceil_div60.
  pose proof (Z.div_mod (s + 59) 60 ltac:(lia)).
  pose proof (Z.mod_pos_bound (s + 59) 60 ltac:(lia)).
  split; [apply Z.div_pos; lia | lia].
Qed.


Lemma calculate_charge_for_call_eq (ci : CallInfo) :
  calculate_charge_for_call ci
  = (d <- get_call_duration ci ;; ct <- get_call_type ci ;;
     Ok (SpecWords.exact_charge ct d)).
Proof.
  destruct (get_call_duration_range ci) as [d [Hd Hr]].
  unfold calculate_charge_for_call; rewrite Hd; simpl.
  destruct (get_call_type ci); simpl; [apply charge_of_exact; exact Hr | reflexivity].
Qed.

Lemma init_eq (ci : CallInfo) :
  CustomerBill.init ci
  = match get_call_type ci with
    | Raise e => Raise e
    | Ok _ => Ok (bill_of_call ci)
    end.
Proof.
  destruct (get_call_duration_range ci) as [d [Hd Hr]].
  unfold CustomerBill.init, CustomerBill.set_call_metrics, CustomerBill.mbind,
    CustomerBill.lift, bill_of_call, SpecWords.call_minutes, SpecWords.call_count,
    SpecWords.call_charge.
  rewrite calculate_charge_for_call_eq, Hd; simpl.
  destruct (get_call_type ci) as [ct|e]; [|reflexivity].
  simpl. destruct ct; unfold CustomerBill.iadd; simpl; f_equal.
Qed.

Lemma init_error (ci : CallInfo) (e : exn) :
  CustomerBill.init ci = Raise e -> e = IndexError /\ get_call_type ci = Raise IndexError.
Proof.
  rewrite init_eq.
  destruct (get_call_type ci) as [ct|e'] eqn:Ht; [discriminate|].
  intros E; inversion E; subst.
  unfold get_call_type, bind in Ht.
  destruct (PhoneNumber_init (origination_number ci)) eqn:Ho.
  - destruct (PhoneNumber_init (termination_number ci)) eqn:Ht'.
    + destruct (str_neq _ _); [discriminate|]; destruct (str_neq _ _); discriminate.
    + inversion Ht; subst; apply PhoneNumber_init_error in Ht'; subst; auto.
  - inversion Ht; subst; apply PhoneNumber_init_error in Ho; subst; auto.
Qed.


Lemma dict_get_some (m : dict) (k : string) (v : CustomerBill.t) :
  dict_get m k = Some v -> In (k, v) m.
Proof.
  induction m as [|[k' v'] m IH]; simpl; [discriminate|].
  destruct (String.eqb k k') eqn:E.
  - apply String.eqb_eq in E; subst; intros H; inversion H; auto.
  - intros H; right; auto.
Qed.

Lemma dict_get_none (m : dict) (k : string) :
  dict_get m k = None -> ~ In k (map fst m).
Proof.
  induction m as [|[k' v'] m IH]; simpl; [auto|].
  destruct (String.eqb k k') eqn:E; [discriminate|].
  apply String.eqb_neq in E; intros H [H'|H']; [congruence|exact (IH H H')].
Qed.

Lemma keys_setitem_new (m : dict) (k : string) (v : CustomerBill.t) :
  ~ In k (map fst m) -> map fst (dict_setitem m k v) = map fst m ++ [k].
Proof.
  induction m as [|[k' v'] m IH]; simpl; [auto|].
  intros H; destruct (String.eqb k k') eqn:E.
  - apply String.eqb_eq in E; subst; tauto.
  - simpl; f_equal; apply IH; tauto.
Qed.

Lemma keys_setitem_old (m : dict) (k : string) (v : CustomerBill.t) :
  In k (map fst m) -> map fst (dict_setitem m k v) = map fst m.
Proof.
  induction m as [|[k' v'] m IH]; simpl; [tauto|].
  intros H; destruct (String.eqb k k') eqn:E.
  - apply String.eqb_eq in E; subst; reflexivity.
  - simpl; f_equal; apply IH; apply String.eqb_neq in E; destruct H; [congruence|auto].
Qed.

Lemma dict_inv_setitem (m : dict) (k : string) (v : CustomerBill.t) :
  dict_inv m -> CustomerBill.account_number v = k -> dict_inv (dict_setitem m k v).
Proof.
  unfold dict_inv; induction m as [|[k' v'] m IH]; simpl; intros Hm Hv k0 v0 H.
  - destruct H as [H|[]]; inversion H; subst; auto.
  - destruct (String.eqb k k') eqn:E.
    + apply String.eqb_eq in E; subst.
      destruct H as [H|H]; [inversion H; subst; auto | eauto].
    + destruct H as [H|H]; [eauto|].
      apply (IH (fun k1 v1 H1 => Hm k1 v1 (or_intror H1)) Hv); exact H.
Qed.

Lemma dict_inv_values (m : dict) :
  dict_inv m -> map CustomerBill.account_number (map snd m) = map fst m.
Proof.
  unfold dict_inv; induction m as [|[k v] m IH]; simpl; intros H; [reflexivity|].
  f_equal; [apply H; auto | apply IH; intros; apply H; auto].
Qed.

Lemma existsb_eqb_in (a : string) (l : list string) :
  existsb (String.eqb a) l = true <-> In a l.
Proof.
  rewrite existsb_exists; split.
  - intros [x [Hx E]]; apply String.eqb_eq in E; subst; exact Hx.
  - intros H; exists a; split; [exact H | apply String.eqb_refl].
Qed.

Lemma update_account (self other self' : CustomerBill.t) (u : unit) :
  CustomerBill.update other self = (Ok u, self') ->
  CustomerBill.account_number self' = CustomerBill.account_number self.
Proof.
  destruct (String.eqb (CustomerBill.account_number self) (CustomerBill.account_number other)) eqn:E.
  - apply String.eqb_eq in E; rewrite (update_same_account _ _ E).
    intros H; inversion H; subst; reflexivity.
  - apply String.eqb_neq in E; rewrite (update_other_account _ _ E); discriminate.
Qed.

Lemma calculate_bills_loop_keys (l : list CallInfo) : forall m,
  dict_inv m ->
  match calculate_bills_loop m l with
  | Ok m' => dict_inv m' /\
      map fst m' = map fst m ++ SpecWords.first_seen_from (map fst m) (map account_number l)
  | Raise e => e = IndexError /\ Exists (fun ci => get_call_type ci = Raise IndexError) l
  end.
Proof.
  induction l as [|ci l IH]; intros m Hm; simpl.
  - rewrite app_nil_r; auto.
  - unfold bind; destruct (CustomerBill.init ci) as [bill|e] eqn:Hi.
    2:{ apply init_error in Hi as [He Ht]; split; [exact He | left; exact Ht]. }
    assert (Hacc : CustomerBill.account_number bill = account_number ci)
      by (rewrite init_eq in Hi; destruct (get_call_type ci); inversion Hi; reflexivity).
    destruct (dict_get m (account_number ci)) as [existing|] eqn:Hg.
    + apply dict_get_some in Hg.
      assert (Hin : In (account_number ci) (map fst m))
        by (apply (in_map fst) in Hg; exact Hg).
      rewrite update_same_account
        by (rewrite Hacc; exact (Hm _ _ Hg)).
      assert (Hinv : dict_inv (dict_setitem m (account_number ci) (merged_bills existing bill)))
        by (apply dict_inv_setitem; [exact Hm | exact (Hm _ _ Hg)]).
      pose proof (IH _ Hinv) as IHm.
      rewrite keys_setitem_old in IHm by exact Hin.
      apply existsb_eqb_in in Hin; rewrite Hin.
      destruct (calculate_bills_loop _ l); [exact IHm|].
      destruct IHm as [He Hex]; split; [exact He | right; exact Hex].
    + apply dict_get_none in Hg.
      assert (Hinv : dict_inv (dict_setitem m (account_number ci) bill))
        by (apply dict_inv_setitem; [exact Hm | exact Hacc]).
      pose proof (IH _ Hinv) as IHm.
      rewrite keys_setitem_new in IHm by exact Hg.
      assert (Hf : existsb (String.eqb (account_number ci)) (map fst m) = false)
        by (destruct (existsb _ _) eqn:E; [apply existsb_eqb_in in E; tauto | reflexivity]).
      rewrite Hf.
      destruct (calculate_bills_loop _ l); [|destruct IHm as [He Hex]; split; [exact He | right; exact Hex]].
      destruct IHm as [Hi' Hk]; split; [exact Hi'|].
      rewrite Hk, <- app_assoc; reflexivity.
Qed.


Lemma add_calls_fields (l : list CallInfo) : forall b,
  add_calls b l =
  CustomerBill.mk (CustomerBill.account_number b)
    (CustomerBill.minutes_international b + SpecWords.sum (SpecWords.call_minutes international) l)
    (CustomerBill.num_international b + SpecWords.sum (SpecWords.call_count international) l)
    (CustomerBill.minutes_domestic b + SpecWords.sum (SpecWords.call_minutes domestic) l)
    (CustomerBill.num_domestic b + SpecWords.sum (SpecWords.call_count domestic) l)
    (CustomerBill.minutes_local b + SpecWords.sum (SpecWords.call_minutes local) l)
    (CustomerBill.num_local b + SpecWords.sum (SpecWords.call_count local) l)
    (CustomerBill.charge b + SpecWords.sum SpecWords.call_charge l).
Proof.
  unfold add_calls; induction l as [|ci l IH]; intros b; simpl.
  - destruct b; simpl; f_equal; ring.
  - rewrite IH; unfold merged_bills, bill_of_call; simpl; f_equal; ring.
Qed.

Lemma dict_get_single (k : string) (v : CustomerBill.t) :
  dict_get [(k, v)] k = Some v.
Proof. simpl; rewrite String.eqb_refl; reflexivity. Qed.

Lemma dict_setitem_single (k : string) (v w : CustomerBill.t) :
  dict_setitem [(k, v)] k w = [(k, w)].
Proof. simpl; rewrite String.eqb_refl; reflexivity. Qed.

Lemma calculate_bills_loop_single (a : string) (l : list CallInfo) : forall b m',
  CustomerBill.account_number b = a ->
  Forall (fun ci => account_number ci = a) l ->
  calculate_bills_loop [(a, b)] l = Ok m' -> m' = [(a, add_calls b l)].
Proof.
  induction l as [|ci l IH]; intros b m' Hb Hl H; cbn [calculate_bills_loop] in H.
  - inversion H; reflexivity.
  - pose proof (Forall_inv Hl) as Hci; pose proof (Forall_inv_tail Hl) as Hl'.
    simpl in Hci; rewrite init_eq in H.
    destruct (get_call_type ci) eqn:Ht; [|discriminate]; cbn [bind] in H.
    rewrite Hci, dict_get_single in H.
    rewrite update_same_account in H
      by (unfold bill_of_call; simpl; congruence).
    rewrite dict_setitem_single in H.
    apply IH in H; [exact H | unfold merged_bills; simpl; exact Hb | exact Hl'].
Qed.

Lemma first_seen_from_props (l : list string) : forall seen,
  NoDup (SpecWords.first_seen_from seen l) /\
  (forall x, In x (SpecWords.first_seen_from seen l) -> ~ In x seen) /\
  (forall x, In x (SpecWords.first_seen_from seen l) \/ In x seen <-> In x l \/ In x seen).
Proof.
  induction l as [|a r IH]; intros seen; simpl.
  - split; [constructor|]; split; [tauto|]; intros x; tauto.
  - destruct (existsb (String.eqb a) seen) eqn:E.
    + apply existsb_eqb_in in E.
      destruct (IH seen) as [H1 [H2 H3]]; split; [exact H1|]; split; [exact H2|].
      intros x; rewrite H3; split; [tauto|]; intros [[<-|H]|H]; tauto.
    + assert (Ha : ~ In a seen) by (intros H; apply existsb_eqb_in in H; congruence).
      destruct (IH (seen ++ [a])) as [H1 [H2 H3]].
      split; [|split].
      * constructor; [|exact H1].
        intros H; apply (H2 a H); apply in_app_iff; right; left; reflexivity.
      * intros x [<-|H]; [exact Ha|].
        intros Hx; apply (H2 x H); apply in_app_iff; left; exact Hx.
      * intros x; specialize (H3 x); rewrite in_app_iff in H3; cbn [In] in *.
        split.
        -- intros [[Hx|Hf]|Hs]; [left; left; exact Hx | | right; exact Hs].
           destruct (proj1 H3 (or_introl Hf)) as [Hr|[Hs|[Hx|[]]]];
             [left; right; exact Hr | right; exact Hs | left; left; exact Hx].
        -- intros [[Hx|Hr]|Hs]; [left; left; exact Hx | | right; exact Hs].
           destruct (proj2 H3 (or_introl Hr)) as [Hf|[Hs|[Hx|[]]]];
             [left; right; exact Hf | right; exact Hs | left; left; exact Hx].
Qed.

(** C1: [calculate_bills] returns one bill per distinct account number, in
    order of first appearance; it raises only [IndexError], and only when
    some call has a phone number that is empty once its ['+'] are stripped. *)
Theorem calculate_bills_first_seen (l : list CallInfo) :
  match calculate_bills l with
  | Ok bills =>
      map CustomerBill.account_number bills = SpecWords.first_seen (map account_number l) /\
      NoDup (map CustomerBill.account_number bills) /\
      (forall a, In a (map CustomerBill.account_number bills) <-> In a (map account_number l))
  | Raise e => e = IndexError /\ Exists (fun ci => get_call_type ci = Raise IndexError) l
  end.
Proof.
  pose proof (calculate_bills_loop_keys l [] ltac:(intros k v [])) as H.
  unfold calculate_bills, bind.
  destruct (calculate_bills_loop [] l) as [m|e]; [|exact H].
  destruct H as [Hinv Hk]; simpl in Hk.
  rewrite (dict_inv_values _ Hinv), Hk.
  destruct (first_seen_from_props (map account_number l) []) as [H1 [_ H3]].
  split; [reflexivity|]; split; [exact H1|].
  intros a; specialize (H3 a); simpl in H3; tauto.
Qed.

(** C2: for calls of one account, the single bill holds per category the
    integer sums of the per-call minutes and counts, and as charge the sum
    of the per-call charges, each already quantized to hundredths. *)
Theorem calculate_bills_same_account (a : string) (l : list CallInfo)
  (Hne : l <> []) (Hacc : Forall (fun ci => account_number ci = a) l) :
  match calculate_bills l with
  | Ok bills =>
      bills = [CustomerBill.mk a
        (SpecWords.sum (SpecWords.call_minutes international) l)
        (SpecWords.sum (SpecWords.call_count international) l)
        (SpecWords.sum (SpecWords.call_minutes domestic) l)
        (SpecWords.sum (SpecWords.call_count domestic) l)
        (SpecWords.sum (SpecWords.call_minutes local) l)
        (SpecWords.sum (SpecWords.call_count local) l)
        (SpecWords.sum SpecWords.call_charge l)]
  | Raise e => e = IndexError /\ Exists (fun ci => get_call_type ci = Raise IndexError) l
  end.
Proof.
  pose proof (calculate_bills_loop_keys l [] ltac:(intros k v [])) as Hkeys.
  unfold calculate_bills, bind.
  destruct (calculate_bills_loop [] l) as [m|e] eqn:Hm; [|exact Hkeys].
  clear Hkeys.
  destruct l as [|ci rest]; [congruence|].
  pose proof (Forall_inv Hacc) as Hci; pose proof (Forall_inv_tail Hacc) as Hrest.
  simpl in Hci; cbn [calculate_bills_loop] in Hm.
  rewrite init_eq in Hm.
  destruct (get_call_type ci) eqn:Ht; [|discriminate]; cbn [bind dict_get dict_setitem] in Hm.
  rewrite Hci in Hm.
  apply calculate_bills_loop_single in Hm;
    [| unfold bill_of_call; simpl; exact Hci | exact Hrest].
  subst m; simpl; rewrite add_calls_fields.
  unfold bill_of_call; simpl; rewrite Hci; reflexivity.
Qed.

Theorem calculate_bills_same_account_witness :
  [domestic_call_info; international_call_info] <> [] /\
  Forall (fun ci => account_number ci = "1"%string) [domestic_call_info; international_call_info] /\
  match calculate_bills [domestic_call_info; international_call_info] with
  | Ok bills =>
      bills = [CustomerBill.mk "1"
        (SpecWords.sum (SpecWords.call_minutes international) [domestic_call_info; international_call_info])
        (SpecWords.sum (SpecWords.call_count international) [domestic_call_info; international_call_info])
        (SpecWords.sum (SpecWords.call_minutes domestic) [domestic_call_info; international_call_info])
        (SpecWords.sum (SpecWords.call_count domestic) [domestic_call_info; international_call_info])
        (SpecWords.sum (SpecWords.call_minutes local) [domestic_call_info; international_call_info])
        (SpecWords.sum (SpecWords.call_count local) [domestic_call_info; international_call_info])
        (SpecWords.sum SpecWords.call_charge [domestic_call_info; international_call_info])]
  | Raise e => e = IndexError /\ Exists (fun ci => get_call_type ci = Raise IndexError) [domestic_call_info; international_call_info]
  end.
Proof.
  split; [discriminate|]. split; [repeat constructor|].
  apply calculate_bills_same_account; [discriminate | repeat constructor].
Defined.

(** C3: for every duration the code can produce (0 to 1440 minutes) the
    float formula quantized to hundredths equals the exact decimal
    [base + rate * duration], an amount with two decimals; hence every call
    is charged that exact amount, and a zero-minute call its base. *)
Theorem calculate_charge_for_call_exact_decimal :
  (forall ct d, 0 <= d <= 1440 -> charge_of ct d = Ok (SpecWords.exact_charge ct d)) /\
  (forall ci d, get_call_duration ci = Ok d -> 0 <= d <= 1440) /\
  (forall ci, calculate_charge_for_call ci
              = (d <- get_call_duration ci ;; ct <- get_call_type ci ;;
                 Ok (SpecWords.exact_charge ct d))) /\
  (forall ct, charge_of ct 0 = Ok (SpecWords.base_cents ct)).
Proof.
  split; [exact charge_of_exact|]. split.
  - intros ci d Hd; destruct (get_call_duration_range ci) as [d' [Hd' Hr]]; congruence.
  - split; [exact calculate_charge_for_call_eq|].
    intros ct; rewrite charge_of_exact by lia.
    unfold SpecWords.exact_charge; f_equal; ring.
Qed.

Lemma str_neq_false (a b : pystr) : str_neq a b = false <-> a = b.
Proof. unfold str_neq; destruct (list_eq_dec ascii_dec a b); split; congruence. Qed.

(** C5: once both numbers parse, the call is international exactly when
    the country codes differ, domestic exactly when they agree and the area
    codes differ, local otherwise; identical numbers are local. *)
Theorem get_call_type_classification (ci : CallInfo) (po pt : PhoneNumber)
  (Ho : PhoneNumber_init (origination_number ci) = Ok po)
  (Ht : PhoneNumber_init (termination_number ci) = Ok pt) :
  (get_call_type ci = Ok international <-> country_code po <> country_code pt) /\
  (get_call_type ci = Ok domestic <->
     country_code po = country_code pt /\ area_code po <> area_code pt) /\
  (get_call_type ci = Ok local <->
     country_code po = country_code pt /\ area_code po = area_code pt) /\
  (origination_number ci = termination_number ci -> get_call_type ci = Ok local).
Proof.
  unfold get_call_type; rewrite Ho, Ht; simpl.
  destruct (str_neq (country_code po) (country_code pt)) eqn:Ec.
  - apply str_neq_true in Ec.
    repeat split; intros; try congruence; try tauto.
  - apply str_neq_false in Ec.
    destruct (str_neq (area_code po) (area_code pt)) eqn:Ea.
    + apply str_neq_true in Ea.
      repeat split; intros; try congruence; try tauto.
    + apply str_neq_false in Ea.
      repeat split; intros; try congruence; tauto.
Qed.

Lemma get_call_type_classification_witness :
  PhoneNumber_init (origination_number domestic_call_info)
    = Ok (mk_PhoneNumber ["1"%char] ["5";"5";"5"]%char ["5";"5";"5";"5";"5";"5";"5"]%char) /\
  PhoneNumber_init (termination_number domestic_call_info)
    = Ok (mk_PhoneNumber ["1"%char] ["6";"6";"6"]%char ["6";"6";"6";"6";"6";"6";"6"]%char) /\
  ((get_call_type domestic_call_info = Ok international <-> ["1"%char] <> ["1"%char]) /\
   (get_call_type domestic_call_info = Ok domestic <->
      ["1"%char] = ["1"%char] /\ ["5";"5";"5"]%char <> ["6";"6";"6"]%char) /\
   (get_call_type domestic_call_info = Ok local <->
      ["1"%char] = ["1"%char] /\ ["5";"5";"5"]%char = ["6";"6";"6"]%char) /\
   (origination_number domestic_call_info = termination_number domestic_call_info ->
      get_call_type domestic_call_info = Ok local)).
Proof.
  split; [vm_compute; reflexivity|]. split; [vm_compute; reflexivity|].
  exact (get_call_type_classification domestic_call_info
           (mk_PhoneNumber ["1"%char] ["5";"5";"5"]%char ["5";"5";"5";"5";"5";"5";"5"]%char)
           (mk_PhoneNumber ["1"%char] ["6";"6";"6"]%char ["6";"6";"6";"6";"6";"6";"6"]%char)
           ltac:(vm_compute; reflexivity) ltac:(vm_compute; reflexivity)).
Defined.

(** C6 (amended): parsing strips every ['+'] at both ends of the string
    ([str.strip('+')]), then takes character 0 as country code, characters
    1 to 3 as area code and characters 4 onward as subscriber number. *)
Theorem PhoneNumber_init_strips_plus (a b : nat) (c : ascii) (rest : pystr)
  (Hc : c <> "+"%char) (Hl : last (c :: rest) c <> "+"%char) :
  PhoneNumber_init (repeat "+"%char a ++ (c :: rest) ++ repeat "+"%char b)
  = Ok (mk_PhoneNumber [c] (py_slice (c :: rest) 1 4) (py_slice_from (c :: rest) 4)).
Proof.
  unfold PhoneNumber_init; rewrite strip_plus_frame by assumption; reflexivity.
Qed.

Lemma PhoneNumber_init_strips_plus_witness :
  "1"%char <> "+"%char /\
  last (list_ascii_of_string "15556666666") "1"%char <> "+"%char /\
  PhoneNumber_init (repeat "+"%char 2 ++ list_ascii_of_string "15556666666" ++ repeat "+"%char 1)
  = Ok (mk_PhoneNumber ["1"%char] (py_slice (list_ascii_of_string "15556666666") 1 4)
          (py_slice_from (list_ascii_of_string "15556666666") 4)).
Proof.
  split; [discriminate|]. split; [vm_compute; discriminate|].
  exact (PhoneNumber_init_strips_plus 2 1 "1"%char (list_ascii_of_string "5556666666")
           ltac:(discriminate) ltac:(vm_compute; discriminate)).
Defined.

(** C6 counterexample: ["++15555555555"] loses both ['+'], so its country
    code is ["1"], not the ["+"] that stripping one ['+'] would give. *)
Lemma PhoneNumber_init_strips_every_plus :
  PhoneNumber_init (list_ascii_of_string "++15555555555")
  <> SpecWords.PhoneNumber_init_one_plus (list_ascii_of_string "++15555555555").
Proof. vm_compute. discriminate. Qed.

(** C7 counterexample: ["+"] strips to the empty string (fewer than 4
    characters) and parsing it raises [IndexError]. *)
Lemma PhoneNumber_init_plus_only_raises :
  (List.length (strip_plus ["+"%char]) < 4)%nat /\ PhoneNumber_init ["+"%char] = Raise IndexError.
Proof. split; vm_compute; [auto | reflexivity]. Qed.

(** C8: [update] raises exactly when the account numbers differ; the
    error is an [AssertionError] whose message contains both numbers. *)
Theorem update_fails_iff_accounts_differ (self other : CustomerBill.t) :
  ((exists e, fst (CustomerBill.update other self) = Raise e) <->
     CustomerBill.account_number self <> CustomerBill.account_number other) /\
  (CustomerBill.account_number self <> CustomerBill.account_number other ->
     fst (CustomerBill.update other self)
     = Raise (AssertionError (CustomerBill.update_msg (CustomerBill.account_number self)
                                                      (CustomerBill.account_number other)))) /\
  (exists p q, CustomerBill.update_msg (CustomerBill.account_number self)
                                       (CustomerBill.account_number other)
               = (p ++ CustomerBill.account_number self ++ q ++ CustomerBill.account_number other)%string).
Proof.
  split; [|split; [|apply update_msg_names]].
  - split.
    + intros [e He] E; rewrite (update_same_account _ _ E) in He; discriminate.
    + intros E; rewrite (update_other_account _ _ E); eexists; reflexivity.
  - intros E; rewrite (update_other_account _ _ E); reflexivity.
Qed.

(** C9 (amended): swapping origination and termination never changes the
    result of [get_call_type]. *)
Theorem get_call_type_symmetric (ci : CallInfo) :
  get_call_type (swap_endpoints ci) = get_call_type ci.
Proof. apply get_call_type_swap_eq. Qed.

(** C9 counterexample: no call with differing country or area codes
    changes category when its endpoints are swapped. *)
Lemma get_call_type_no_asymmetric_pair :
  ~ exists ci po pt,
      PhoneNumber_init (origination_number ci) = Ok po /\
      PhoneNumber_init (termination_number ci) = Ok pt /\
      (country_code po <> country_code pt \/ area_code po <> area_code pt) /\
      get_call_type (swap_endpoints ci) <> get_call_type ci.
Proof.
  intros [ci [po [pt [_ [_ [_ H]]]]]]; apply H, get_call_type_swap_eq.
Qed.

(** C10: a cross-account [update] raises before any assignment, so the
    target bill is left exactly as it was. *)
Theorem update_leaves_self_on_error (self other : CustomerBill.t)
  (Hdiff : CustomerBill.account_number self <> CustomerBill.account_number other) :
  snd (CustomerBill.update other self) = self /\
  exists e, fst (CustomerBill.update other self) = Raise e.
Proof.
  rewrite (update_other_account _ _ Hdiff); split; [reflexivity | eexists; reflexivity].
Qed.

Lemma update_leaves_self_on_error_witness :
  CustomerBill.account_number (CustomerBill.mk "1" 2 1 0 0 0 0 140)
  <> CustomerBill.account_number (CustomerBill.mk "2" 0 0 3 1 0 0 30) /\
  snd (CustomerBill.update (CustomerBill.mk "2" 0 0 3 1 0 0 30) (CustomerBill.mk "1" 2 1 0 0 0 0 140))
  = CustomerBill.mk "1" 2 1 0 0 0 0 140 /\
  exists e, fst (CustomerBill.update (CustomerBill.mk "2" 0 0 3 1 0 0 30)
                                     (CustomerBill.mk "1" 2 1 0 0 0 0 140)) = Raise e.
Proof.
  split; [simpl; discriminate|].
  exact (update_leaves_self_on_error (CustomerBill.mk "1" 2 1 0 0 0 0 140)
           (CustomerBill.mk "2" 0 0 3 1 0 0 30) ltac:(simpl; discriminate)).
Defined.

(** ** Further properties of the program *)

(** *** Helper lemmas *)

Lemma dict_get_setitem (m : dict) (k k' : string) (v : CustomerBill.t) :
  dict_get (dict_setitem m k v) k' = if String.eqb k' k then Some v else dict_get m k'.
Proof.
  induction m as [|[k0 v0] m IH]; simpl.
  - reflexivity.
  - destruct (String.eqb k k0) eqn:E; simpl.
    + apply String.eqb_eq in E; subst k0.
      destruct (String.eqb k' k); reflexivity.
    + rewrite IH. destruct (String.eqb k' k0) eqn:E1, (String.eqb k' k) eqn:E2; try reflexivity.
      apply String.eqb_eq in E1; apply String.eqb_eq in E2; subst.
      rewrite String.eqb_refl in E; discriminate.
Qed.

Lemma merged_zero (ci : CallInfo) :
  merged_bills (zero_bill (account_number ci)) (bill_of_call ci) = bill_of_call ci.
Proof. reflexivity. Qed.

(** What the loop leaves under each key: the calls of that account folded
    into the bill already there, or into a zero bill. *)
Lemma loop_lookup (l : list CallInfo) : forall m m',
  dict_inv m ->
  calculate_bills_loop m l = Ok m' ->
  forall k, dict_get m' k =
    match dict_get m k with
    | Some v => Some (add_calls v (calls_of k l))
    | None => match calls_of k l with
              | [] => None
              | _ => Some (add_calls (zero_bill k) (calls_of k l))
              end
    end.
Proof.
  induction l as [|ci l IH]; intros m m' Hm H k; cbn [calculate_bills_loop] in H.
  - inversion H; subst. destruct (dict_get m' k); reflexivity.
  - rewrite init_eq in H.
    destruct (get_call_type ci) eqn:Ht; [|discriminate]; cbn [bind] in H.
    unfold calls_of; cbn [filter]; fold (calls_of k l).
    destruct (dict_get m (account_number ci)) as [ex|] eqn:Hg.
    + assert (Hacc : CustomerBill.account_number ex = account_number ci)
        by (apply dict_get_some in Hg; exact (Hm _ _ Hg)).
      rewrite update_same_account in H by (unfold bill_of_call; simpl; congruence).
      apply IH with (k := k) in H;
        [| apply dict_inv_setitem; [exact Hm | unfold merged_bills; simpl; exact Hacc]].
      rewrite H, dict_get_setitem.
      destruct (String.eqb k (account_number ci)) eqn:E.
      * apply String.eqb_eq in E; subst k. rewrite Hg, String.eqb_refl. reflexivity.
      * rewrite String.eqb_sym, E. reflexivity.
    + apply IH with (k := k) in H;
        [| apply dict_inv_setitem; [exact Hm | reflexivity]].
      rewrite H, dict_get_setitem.
      destruct (String.eqb k (account_number ci)) eqn:E.
      * apply String.eqb_eq in E; subst k. rewrite Hg, String.eqb_refl.
        rewrite <- merged_zero at 1. reflexivity.
      * rewrite String.eqb_sym, E. reflexivity.
Qed.

Lemma add_calls_zero_sums (a : string) (l : list CallInfo) :
  add_calls (zero_bill a) (calls_of a l) = bill_sums a l.
Proof. rewrite add_calls_fields; reflexivity. Qed.

Lemma dict_get_nodup (m : dict) (k : string) (v : CustomerBill.t) :
  NoDup (map fst m) -> In (k, v) m -> dict_get m k = Some v.
Proof.
  induction m as [|[k0 v0] m IH]; simpl; [tauto|].
  intros Hnd [H|H]; inversion Hnd as [|? ? Hn Hnd']; subst.
  - inversion H; subst; rewrite String.eqb_refl; reflexivity.
  - destruct (String.eqb k k0) eqn:E.
    + apply String.eqb_eq in E; subst. exfalso; apply Hn.
      apply (in_map fst) in H; exact H.
    + apply IH; assumption.
Qed.

Lemma calculate_bills_ok_eq (l : list CallInfo) (bills : list CustomerBill.t) :
  calculate_bills l = Ok bills ->
  bills = map (fun a => bill_sums a l) (SpecWords.first_seen (map account_number l)).
Proof.
  unfold calculate_bills.
  pose proof (calculate_bills_loop_keys l [] ltac:(intros k v [])) as Hk.
  pose proof (loop_lookup l []) as Hl.
  destruct (calculate_bills_loop [] l) as [m|e] eqn:Hm; [|discriminate].
  cbn [bind]; intros E; inversion E; subst bills; clear E.
  destruct Hk as [Hinv Hkeys]; simpl in Hkeys.
  unfold SpecWords.first_seen; rewrite <- Hkeys.
  destruct (first_seen_from_props (map account_number l) []) as [Hnd _].
  rewrite <- Hkeys in Hnd.
  specialize (Hl m ltac:(intros k v []) eq_refl).
  rewrite map_map. apply map_ext_in. intros [k v] Hin. simpl.
  specialize (Hl k). simpl in Hl.
  rewrite (dict_get_nodup m k v Hnd Hin) in Hl.
  destruct (calls_of k l) as [|c r] eqn:Ec; [discriminate|].
  inversion Hl; subst v.
  change (add_calls (zero_bill k) (c :: r) = bill_sums k l).
  rewrite <- Ec; apply add_calls_zero_sums.
Qed.

Lemma loop_ok_iff (l : list CallInfo) : forall m,
  dict_inv m ->
  (exists m', calculate_bills_loop m l = Ok m') <->
  Forall (fun ci => exists ct, get_call_type ci = Ok ct) l.
Proof.
  induction l as [|ci l IH]; intros m Hm; cbn [calculate_bills_loop].
  - split; [constructor | eauto].
  - rewrite init_eq, Forall_cons_iff.
    destruct (get_call_type ci) as [ct|e] eqn:Ht; cbn [bind].
    + destruct (dict_get m (account_number ci)) as [ex|] eqn:Hg.
      * assert (Hacc : CustomerBill.account_number ex = account_number ci)
          by (apply dict_get_some in Hg; exact (Hm _ _ Hg)).
        rewrite update_same_account by (unfold bill_of_call; simpl; congruence).
        rewrite IH by (apply dict_inv_setitem; [exact Hm | unfold merged_bills; simpl; exact Hacc]).
        split; [intros H; split; eauto | tauto].
      * rewrite IH by (apply dict_inv_setitem; [exact Hm | reflexivity]).
        split; [intros H; split; eauto | tauto].
    + split; [intros [m' H]; discriminate | intros [[ct H] _]; discriminate].
Qed.

Lemma calls_of_perm (a : string) (l l' : list CallInfo) :
  Permutation l l' -> Permutation (calls_of a l) (calls_of a l').
Proof.
  unfold calls_of; induction 1; simpl.
  - constructor.
  - destruct (String.eqb _ a); [constructor|]; assumption.
  - destruct (String.eqb (account_number x) a), (String.eqb (account_number y) a);
      try constructor; reflexivity.
  - eapply perm_trans; eassumption.
Qed.

Lemma sum_perm (f : CallInfo -> Z) (l l' : list CallInfo) :
  Permutation l l' -> SpecWords.sum f l = SpecWords.sum f l'.
Proof.
  unfold SpecWords.sum; induction 1; simpl; try lia.
Qed.

Lemma bill_sums_perm (a : string) (l l' : list CallInfo) :
  Permutation l l' -> bill_sums a l = bill_sums a l'.
Proof.
  intros H; apply (calls_of_perm a) in H; unfold bill_sums.
  rewrite !(sum_perm _ _ _ H); reflexivity.
Qed.

Lemma first_seen_perm (l l' : list string) :
  Permutation l l' -> Permutation (SpecWords.first_seen l) (SpecWords.first_seen l').
Proof.
  intros H.
  destruct (first_seen_from_props l []) as [N1 [_ I1]].
  destruct (first_seen_from_props l' []) as [N2 [_ I2]].
  apply NoDup_Permutation; [exact N1 | exact N2|].
  intros x; specialize (I1 x); specialize (I2 x); simpl in I1, I2.
  unfold SpecWords.first_seen.
  split; intros Hx.
  - assert (In x l) by tauto. assert (In x l') by (eapply Permutation_in; eauto). tauto.
  - assert (In x l') by tauto. assert (In x l) by (eapply Permutation_in; [symmetry|]; eauto). tauto.
Qed.

Lemma sum_over_accounts (f : CallInfo -> Z) (l : list CallInfo) : forall A,
  NoDup A -> (forall ci, In ci l -> In (account_number ci) A) ->
  fold_right (fun a acc => SpecWords.sum f (calls_of a l) + acc) 0 A = SpecWords.sum f l.
Proof.
  induction l as [|ci l IH]; intros A Hnd Hin.
  - clear Hin; induction A as [|a A IHA]; [reflexivity|].
    inversion Hnd; subst; cbn [fold_right]. rewrite IHA by assumption. reflexivity.
  - assert (Hc : In (account_number ci) A) by (apply Hin; left; reflexivity).
    assert (Hl : forall c, In c l -> In (account_number c) A) by (intros; apply Hin; right; auto).
    transitivity (f ci + SpecWords.sum f l); [|reflexivity].
    rewrite <- (IH A Hnd Hl).
    clear IH Hin Hl. induction A as [|a A IHA]; [destruct Hc|].
    inversion Hnd as [|? ? Ha Hnd']; subst. cbn [fold_right].
    unfold calls_of at 1; cbn [filter]; fold (calls_of a l).
    destruct (String.eqb (account_number ci) a) eqn:E.
    + apply String.eqb_eq in E; subst a.
      assert (Hz : forall A', ~ In (account_number ci) A' ->
        fold_right (fun a acc => SpecWords.sum f (calls_of a (ci :: l)) + acc) 0 A' =
        fold_right (fun a acc => SpecWords.sum f (calls_of a l) + acc) 0 A').
      { induction A' as [|a' A' IHA']; intros Hn; [reflexivity|]; cbn [fold_right].
        unfold calls_of at 1; cbn [filter]; fold (calls_of a' l).
        destruct (String.eqb (account_number ci) a') eqn:E'.
        - apply String.eqb_eq in E'; exfalso; apply Hn; left; symmetry; exact E'.
        - rewrite IHA' by (intros X; apply Hn; right; exact X). reflexivity. }
      rewrite Hz by exact Ha. fold (calls_of (account_number ci) l).
      unfold SpecWords.sum at 1; simpl; fold (SpecWords.sum f (calls_of (account_number ci) l)). lia.
    + destruct Hc as [Hc|Hc]; [subst a; rewrite String.eqb_refl in E; discriminate|].
      fold (calls_of a l). rewrite IHA by assumption. lia.
Qed.

Lemma count_one (ci : CallInfo) (ct : call_type) :
  get_call_type ci = Ok ct ->
  SpecWords.call_count international ci + SpecWords.call_count domestic ci
  + SpecWords.call_count local ci = 1.
Proof.
  unfold SpecWords.call_count; intros ->; destruct ct; reflexivity.
Qed.

Lemma seconds_within_day_tod (start stop : PyDatetime.datetime) :
  SpecWords.seconds_within_day start stop
  = ((time_of_day_us stop - time_of_day_us start) / 1000000) mod 86400.
Proof.
  unfold SpecWords.seconds_within_day, SpecWords.elapsed_microseconds, time_of_day_us.
  set (D := PyDatetime.toordinal stop - PyDatetime.toordinal start).
  match goal with |- ((?e / _) mod _) = ((?f / _) mod _) =>
    replace e with (D * 86400 * 1000000 + f) by ring end.
  rewrite Z.div_add_l by lia.
  rewrite Z.add_comm, Z.mod_add by lia. reflexivity.
Qed.

Lemma PhoneNumber_init_prefix (s s' : pystr) :
  firstn 4 (strip_plus s) = firstn 4 (strip_plus s') ->
  match PhoneNumber_init s, PhoneNumber_init s' with
  | Ok p, Ok p' => country_code p = country_code p' /\ area_code p = area_code p'
  | Raise e, Raise e' => e = e'
  | _, _ => False
  end.
Proof.
  unfold PhoneNumber_init, py_index, py_slice.
  generalize (strip_plus s) as x; generalize (strip_plus s') as y.
  intros y x H.
  destruct x as [|a [|b [|c [|d x]]]], y as [|a' [|b' [|c' [|d' y]]]];
    cbn in H |- *; try discriminate; inversion H; subst; auto.
Qed.

Lemma split_on_nosep (sep : ascii) (a : pystr) :
  ~ In sep a -> split_on sep a = [a].
Proof.
  induction a as [|c a IH]; intros H; [reflexivity|].
  simpl. destruct (ascii_dec c sep) as [->|Hc]; [exfalso; apply H; left; reflexivity|].
  rewrite IH by (intros X; apply H; right; exact X). reflexivity.
Qed.

Lemma split_on_app (sep : ascii) (a b : pystr) :
  ~ In sep a -> split_on sep (a ++ sep :: b) = a :: split_on sep b.
Proof.
  induction a as [|c a IH]; intros H; simpl.
  - destruct (ascii_dec sep sep) as [_|n]; [reflexivity|congruence].
  - destruct (ascii_dec c sep) as [->|Hc]; [exfalso; apply H; left; reflexivity|].
    rewrite IH by (intros X; apply H; right; exact X). reflexivity.
Qed.

Lemma readlines_app (a b : pystr) :
  ~ In nl a -> readlines (a ++ nl :: b) = (a ++ [nl]) :: readlines b.
Proof.
  induction a as [|c a IH]; intros H; simpl.
  - destruct (ascii_dec nl "010"%char) as [_|n]; [reflexivity|congruence].
  - destruct (ascii_dec c "010"%char) as [E|Hc]; [exfalso; apply H; left; exact E|].
    rewrite IH by (intros X; apply H; right; exact X). reflexivity.
Qed.

Lemma lstrip_space_snoc (s : pystr) (w : ascii) :
  is_space w = true ->
  lstrip_space (s ++ [w]) = match lstrip_space s with [] => [] | x => x ++ [w] end.
Proof.
  intros Hw; induction s as [|c s IH]; simpl.
  - rewrite Hw; reflexivity.
  - destruct (is_space c); [exact IH | reflexivity].
Qed.

Lemma py_strip_snoc_space (s : pystr) (w : ascii) :
  is_space w = true -> py_strip (s ++ [w]) = py_strip s.
Proof.
  intros Hw; unfold py_strip; rewrite (lstrip_space_snoc s w Hw).
  destruct (lstrip_space s) as [|c x]; [reflexivity|].
  rewrite rev_app_distr; simpl; rewrite Hw; reflexivity.
Qed.

Lemma parse_row_eq (line : pystr) :
  parse_row line =
  match split_on ","%char line with
  | v0 :: v1 :: v2 :: v3 :: v4 :: _ => Ok (mk_row v0 v1 v2 v3 (py_strip v4))
  | _ => Raise IndexError
  end.
Proof.
  unfold parse_row, list_index.
  destruct (split_on ","%char line) as [|v0 [|v1 [|v2 [|v3 [|v4 vs]]]]]; reflexivity.
Qed.

Lemma digit_no_sep (c : ascii) : is_digit c = true -> no_sep c.
Proof.
  intros H; split; intros ->; vm_compute in H; discriminate.
Qed.

Lemma digits_rev_digits (f : nat) : forall n,
  Forall (fun c => is_digit c = true) (digits_rev f n).
Proof.
  induction f as [|f IH]; intros n; simpl; [constructor|].
  assert (Hd : is_digit (ascii_of_nat (48 + Z.to_nat (n mod 10))) = true).
  { pose proof (Z.mod_pos_bound n 10 ltac:(lia)).
    unfold is_digit; rewrite nat_ascii_embedding by lia.
    apply andb_true_intro; split; apply Nat.leb_le; lia. }
  destruct (n <? 10); constructor; auto.
Qed.

Lemma str_nat_digits (n : Z) : Forall (fun c => is_digit c = true) (str_nat n).
Proof. unfold str_nat; apply Forall_rev, digits_rev_digits. Qed.

Lemma str_int_no_sep (n : Z) : Forall no_sep (str_int n).
Proof.
  assert (Hd : forall m, Forall no_sep (str_nat m))
    by (intros m; eapply Forall_impl; [exact digit_no_sep | apply str_nat_digits]).
  unfold str_int; destruct (n <? 0); [constructor; [split; discriminate | apply Hd] | apply Hd].
Qed.

Lemma str_decimal_cents_no_sep (c : Z) : Forall no_sep (str_decimal_cents c).
Proof.
  assert (Hd : Forall no_sep (str_nat (Z.abs c)))
    by (eapply Forall_impl; [exact digit_no_sep | apply str_nat_digits]).
  assert (Hs : Forall no_sep (if c <? 0 then ["-"%char] else []))
    by (destruct (c <? 0); repeat constructor; discriminate).
  assert (Hz : forall k, Forall no_sep (repeat "0"%char k))
    by (intros k; apply Forall_forall; intros x Hx; apply repeat_spec in Hx; subst;
        split; discriminate).
  rewrite Forall_forall in Hd.
  unfold str_decimal_cents.
  destruct (_ <=? 0); apply Forall_app; split; try exact Hs;
    repeat (apply Forall_app; split); try (repeat constructor; discriminate);
    try apply Hz; apply Forall_forall; intros x Hx; apply Hd.
  - exact Hx.
  - rewrite <- (firstn_skipn (Z.to_nat (Z.of_nat (List.length (str_nat (Z.abs c))) - 2))
                 (str_nat (Z.abs c))).
    apply in_app_iff; left; exact Hx.
  - rewrite <- (firstn_skipn (Z.to_nat (Z.of_nat (List.length (str_nat (Z.abs c))) - 2))
                 (str_nat (Z.abs c))).
    apply in_app_iff; right; exact Hx.
Qed.

Lemma no_sep_not_in (s : pystr) :
  Forall no_sep s -> ~ In ","%char s /\ ~ In nl s.
Proof.
  rewrite Forall_forall; intros H; split; intros X; apply H in X; destruct X; tauto.
Qed.

Lemma bill_repr_no_nl (b : CustomerBill.t) :
  ~ In nl (list_ascii_of_string (CustomerBill.account_number b)) -> ~ In nl (bill_repr b).
Proof.
  intros H X. unfold bill_repr, comma in X.
  repeat (apply in_app_iff in X; destruct X as [X|X]);
    try (destruct X as [X|[]]; unfold nl in X; discriminate X);
    try exact (H X);
    try exact (proj2 (no_sep_not_in _ (str_int_no_sep _)) X).
  exact (proj2 (no_sep_not_in _ (str_decimal_cents_no_sep _)) X).
Qed.

Lemma headers_line_no_nl : ~ In nl headers_line.
Proof.
  intros X.
  assert (E : existsb (fun c => if ascii_dec c nl then true else false) headers_line = false)
    by (vm_compute; reflexivity).
  assert (E' : existsb (fun c => if ascii_dec c nl then true else false) headers_line = true)
    by (apply existsb_exists; exists nl; split; [exact X | destruct (ascii_dec nl nl); congruence]).
  congruence.
Qed.

Lemma digits_value_fold (s : pystr) : forall a,
  fold_left (fun acc c => acc * 10 + Z.of_nat (nat_of_ascii c - 48)) s a
  = a * 10 ^ Z.of_nat (List.length s) + digits_value s.
Proof.
  induction s as [|c s IH]; intros a; unfold digits_value.
  - cbn [fold_left List.length]; lia.
  - cbn [fold_left List.length]. rewrite (IH (a * 10 + _)), (IH (0 * 10 + _)).
    rewrite Nat2Z.inj_succ, Z.pow_succ_r by lia. ring.
Qed.

Lemma digits_value_app (x y : pystr) :
  digits_value (x ++ y) = digits_value x * 10 ^ Z.of_nat (List.length y) + digits_value y.
Proof.
  unfold digits_value at 1; rewrite fold_left_app.
  apply digits_value_fold.
Qed.

Lemma digits_value_zeros (k : nat) (y : pystr) :
  digits_value (repeat "0"%char k ++ y) = digits_value y.
Proof.
  rewrite digits_value_app.
  replace (digits_value (repeat "0"%char k)) with 0; [lia|].
  induction k as [|k IH]; [reflexivity|].
  change (repeat "0"%char (S k)) with ([ "0"%char ] ++ repeat "0"%char k).
  rewrite digits_value_app, <- IH. reflexivity.
Qed.

Lemma digits_value_digit (d : ascii) :
  digits_value [d] = Z.of_nat (nat_of_ascii d - 48).
Proof. reflexivity. Qed.

Lemma digits_rev_value (f : nat) : forall n,
  0 <= n < 10 ^ Z.of_nat f -> digits_value (rev (digits_rev f n)) = n.
Proof.
  induction f as [|f IH]; intros n Hn.
  - change (10 ^ Z.of_nat 0) with 1 in Hn. cbn [digits_rev rev].
    change (digits_value []) with 0; lia.
  - pose proof (Z.mod_pos_bound n 10 ltac:(lia)) as Hm.
    set (d := ascii_of_nat (48 + Z.to_nat (n mod 10))).
    assert (Hd : Z.of_nat (nat_of_ascii d - 48) = n mod 10)
      by (unfold d; rewrite nat_ascii_embedding by lia; lia).
    cbn [digits_rev]; fold d.
    destruct (n <? 10) eqn:E.
    + apply Z.ltb_lt in E. cbn [rev app]. rewrite digits_value_digit, Hd.
      apply Z.mod_small; lia.
    + apply Z.ltb_ge in E. cbn [rev].
      rewrite digits_value_app, digits_value_digit, Hd.
      change (Z.of_nat (List.length [d])) with 1.
      rewrite IH.
      * pose proof (Z.div_mod n 10 ltac:(lia)). lia.
      * rewrite Nat2Z.inj_succ, Z.pow_succ_r in Hn by lia.
        split; [apply Z.div_pos; lia | apply Z.div_lt_upper_bound; lia].
Qed.

Lemma str_nat_value (n : Z) : 0 <= n ->
  digits_value (str_nat n) = n /\ str_nat n <> [].
Proof.
  intros Hn; unfold str_nat; split.
  - apply digits_rev_value. split; [exact Hn|].
    rewrite Nat2Z.inj_succ, Z2Nat.id by apply Z.log2_nonneg.
    destruct (Z.eq_dec n 0) as [->|Hz]; [simpl; lia|].
    pose proof (Z.log2_spec n ltac:(lia)) as [_ H2].
    eapply Z.lt_le_trans; [exact H2|].
    apply Z.pow_le_mono_l; lia.
  - cbn [digits_rev]; destruct (n <? 10); cbn [rev app];
      [discriminate | intros X; apply app_eq_nil in X; destruct X as [_ X]; discriminate X].
Qed.

(** *** Properties *)

(** X1: when [calculate_bills] succeeds it returns, for each distinct
    account in order of first appearance, the bill whose every field is the
    sum of that field over the account's own calls. *)
Theorem calculate_bills_by_account (l : list CallInfo) (bills : list CustomerBill.t)
  (H : calculate_bills l = Ok bills) :
  bills = map (fun a => bill_sums a l) (SpecWords.first_seen (map account_number l)).
Proof. exact (calculate_bills_ok_eq l bills H). Qed.

Lemma calculate_bills_by_account_witness :
  calculate_bills [international_call_info; other_account_call_info; local_call_info]
    = Ok [CustomerBill.mk "1" 2 1 0 0 2 1 144; CustomerBill.mk "2" 0 0 2 1 0 0 20] /\
  [CustomerBill.mk "1" 2 1 0 0 2 1 144; CustomerBill.mk "2" 0 0 2 1 0 0 20]
  = map (fun a => bill_sums a [international_call_info; other_account_call_info; local_call_info])
      (SpecWords.first_seen
         (map account_number [international_call_info; other_account_call_info; local_call_info])).
Proof.
  assert (H : calculate_bills [international_call_info; other_account_call_info; local_call_info]
              = Ok [CustomerBill.mk "1" 2 1 0 0 2 1 144; CustomerBill.mk "2" 0 0 2 1 0 0 20])
    by (vm_compute; reflexivity).
  split; [exact H | exact (calculate_bills_by_account _ _ H)].
Defined.

(** X2: reordering the calls never changes whether [calculate_bills]
    succeeds, and when it does the two runs return bills that are a
    permutation of each other. *)
Theorem calculate_bills_permutation (l l' : list CallInfo) (Hp : Permutation l l') :
  match calculate_bills l, calculate_bills l' with
  | Ok bills, Ok bills' => Permutation bills bills'
  | Raise _, Raise _ => True
  | _, _ => False
  end.
Proof.
  pose proof (loop_ok_iff l [] ltac:(intros k v [])) as O1.
  pose proof (loop_ok_iff l' [] ltac:(intros k v [])) as O2.
  assert (Hf : Forall (fun ci => exists ct, get_call_type ci = Ok ct) l <->
               Forall (fun ci => exists ct, get_call_type ci = Ok ct) l')
    by (split; apply Permutation_Forall; [exact Hp | symmetry; exact Hp]).
  destruct (calculate_bills l) as [b|e] eqn:E1, (calculate_bills l') as [b'|e'] eqn:E2.
  - rewrite (calculate_bills_ok_eq _ _ E1), (calculate_bills_ok_eq _ _ E2).
    rewrite (map_ext _ _ (fun a => bill_sums_perm a l l' Hp)).
    apply Permutation_map, first_seen_perm, Permutation_map, Hp.
  - exfalso. unfold calculate_bills in *.
    destruct (calculate_bills_loop [] l) eqn:M1; [|discriminate].
    destruct (calculate_bills_loop [] l') eqn:M2; [discriminate|].
    destruct (proj2 O2 (proj1 Hf (proj1 O1 (ex_intro _ _ eq_refl)))) as [x Hx]; discriminate.
  - exfalso. unfold calculate_bills in *.
    destruct (calculate_bills_loop [] l) eqn:M1; [discriminate|].
    destruct (calculate_bills_loop [] l') eqn:M2; [|discriminate].
    destruct (proj2 O1 (proj2 Hf (proj1 O2 (ex_intro _ _ eq_refl)))) as [x Hx]; discriminate.
  - exact I.
Qed.

Lemma calculate_bills_permutation_witness :
  Permutation [international_call_info; other_account_call_info]
              [other_account_call_info; international_call_info] /\
  match calculate_bills [international_call_info; other_account_call_info],
        calculate_bills [other_account_call_info; international_call_info] with
  | Ok bills, Ok bills' => Permutation bills bills'
  | Raise _, Raise _ => True
  | _, _ => False
  end.
Proof.
  pose proof (perm_swap other_account_call_info international_call_info []) as Hp.
  split; [exact Hp|].
  exact (calculate_bills_permutation [international_call_info; other_account_call_info]
           [other_account_call_info; international_call_info] Hp).
Defined.

(** X3: when [calculate_bills] succeeds, no call is lost or counted twice:
    the call counters of all bills add up to the number of calls, and their
    charges add up to the sum of the per-call charges. *)
Theorem calculate_bills_totals (l : list CallInfo) (bills : list CustomerBill.t)
  (H : calculate_bills l = Ok bills) :
  sum_bills (fun b => CustomerBill.num_international b + CustomerBill.num_domestic b
                      + CustomerBill.num_local b) bills = Z.of_nat (List.length l) /\
  sum_bills CustomerBill.charge bills
  = fold_right (fun ci acc => match calculate_charge_for_call ci with
                              | Ok c => c | Raise _ => 0 end + acc) 0 l.
Proof.
  assert (Hok : Forall (fun ci => exists ct, get_call_type ci = Ok ct) l).
  { apply (loop_ok_iff l [] ltac:(intros k v [])).
    unfold calculate_bills in H; destruct (calculate_bills_loop [] l); [eauto|discriminate]. }
  apply calculate_bills_ok_eq in H; subst bills.
  destruct (first_seen_from_props (map account_number l) []) as [Hnd [_ Hi]].
  assert (Hcov : forall ci, In ci l ->
            In (account_number ci) (SpecWords.first_seen (map account_number l))).
  { intros ci Hc; unfold SpecWords.first_seen.
    destruct (proj2 (Hi (account_number ci)) (or_introl (in_map _ _ _ Hc))) as [X|[]]; exact X. }
  assert (Hmap : forall (g : CustomerBill.t -> Z) (h : CallInfo -> Z),
    (forall a, g (bill_sums a l) = SpecWords.sum h (calls_of a l)) ->
    sum_bills g (map (fun a => bill_sums a l) (SpecWords.first_seen (map account_number l)))
    = SpecWords.sum h l).
  { intros g h Hg. rewrite <- (sum_over_accounts h l _ Hnd Hcov).
    clear -Hg. unfold SpecWords.first_seen.
    generalize (SpecWords.first_seen_from [] (map account_number l)) as A.
    induction A as [|a A IHA]; simpl; [reflexivity|].
    rewrite Hg, IHA. reflexivity. }
  split.
  - rewrite (Hmap _ (fun ci => SpecWords.call_count international ci
                   + SpecWords.call_count domestic ci + SpecWords.call_count local ci)).
    + clear -Hok. induction Hok as [|ci l [ct Hct] _ IH]; [reflexivity|].
      unfold SpecWords.sum in *; simpl. rewrite IH, (count_one ci ct Hct). lia.
    + intros a; unfold bill_sums; simpl. unfold SpecWords.sum.
      induction (calls_of a l); simpl; lia.
  - apply Hmap; intros a; reflexivity.
Qed.

Lemma calculate_bills_totals_witness :
  calculate_bills [international_call_info; other_account_call_info; local_call_info]
    = Ok [CustomerBill.mk "1" 2 1 0 0 2 1 144; CustomerBill.mk "2" 0 0 2 1 0 0 20] /\
  sum_bills (fun b => CustomerBill.num_international b + CustomerBill.num_domestic b
                      + CustomerBill.num_local b)
    [CustomerBill.mk "1" 2 1 0 0 2 1 144; CustomerBill.mk "2" 0 0 2 1 0 0 20] = 3 /\
  sum_bills CustomerBill.charge
    [CustomerBill.mk "1" 2 1 0 0 2 1 144; CustomerBill.mk "2" 0 0 2 1 0 0 20]
  = fold_right (fun ci acc => match calculate_charge_for_call ci with
                              | Ok c => c | Raise _ => 0 end + acc) 0
      [international_call_info; other_account_call_info; local_call_info].
Proof.
  assert (H : calculate_bills [international_call_info; other_account_call_info; local_call_info]
              = Ok [CustomerBill.mk "1" 2 1 0 0 2 1 144; CustomerBill.mk "2" 0 0 2 1 0 0 20])
    by (vm_compute; reflexivity).
  split; [exact H | exact (calculate_bills_totals _ _ H)].
Defined.

(** X4: [CustomerBill(call_info)] for a call of type [ct] lasting [d]
    minutes is a bill of the call's account with [d] minutes and one call
    under [ct], zero minutes and zero calls under the other two types, and
    the charge [base + rate * d] of [ct]. *)
Theorem init_single_call (ci : CallInfo) (ct : call_type) (d : Z)
  (Ht : get_call_type ci = Ok ct) (Hd : get_call_duration ci = Ok d) :
  exists b, CustomerBill.init ci = Ok b /\
    CustomerBill.account_number b = account_number ci /\
    (forall ct', CustomerBill.get (minutes_attr ct') b = (if call_type_eqb ct' ct then d else 0) /\
                 CustomerBill.get (num_attr ct') b = (if call_type_eqb ct' ct then 1 else 0)) /\
    CustomerBill.charge b = SpecWords.exact_charge ct d.
Proof.
  rewrite init_eq, Ht; eexists; split; [reflexivity|].
  unfold bill_of_call, SpecWords.call_minutes, SpecWords.call_count, SpecWords.call_charge.
  rewrite calculate_charge_for_call_eq, Hd, Ht; cbn [bind].
  split; [reflexivity|]; split; [|reflexivity].
  intros ct'; destruct ct, ct'; split; reflexivity.
Qed.

Lemma init_single_call_witness :
  get_call_type domestic_call_info = Ok domestic /\
  get_call_duration domestic_call_info = Ok 2 /\
  exists b, CustomerBill.init domestic_call_info = Ok b /\
    CustomerBill.account_number b = account_number domestic_call_info /\
    (forall ct', CustomerBill.get (minutes_attr ct') b = (if call_type_eqb ct' domestic then 2 else 0) /\
                 CustomerBill.get (num_attr ct') b = (if call_type_eqb ct' domestic then 1 else 0)) /\
    CustomerBill.charge b = SpecWords.exact_charge domestic 2.
Proof.
  assert (Ht : get_call_type domestic_call_info = Ok domestic) by (vm_compute; reflexivity).
  assert (Hd : get_call_duration domestic_call_info = Ok 2) by (vm_compute; reflexivity).
  split; [exact Ht|]; split; [exact Hd|].
  exact (init_single_call domestic_call_info domestic 2 Ht Hd).
Defined.

(** X5: the charge [calculate_charge_for_call] returns for a call of type
    [ct] lies between the base charge of [ct] and that base plus 1440
    minutes at the rate of [ct]; when [get_call_type] raises,
    [calculate_charge_for_call] raises too. *)
Theorem calculate_charge_for_call_bounds (ci : CallInfo) :
  match calculate_charge_for_call ci, get_call_type ci with
  | Ok c, Ok ct =>
      SpecWords.base_cents ct <= c <= SpecWords.base_cents ct + SpecWords.rate_cents ct * 1440
  | Ok _, Raise _ => False
  | Raise _, _ => True
  end.
Proof.
  rewrite calculate_charge_for_call_eq.
  destruct (get_call_duration_range ci) as [d [Hd Hr]]; rewrite Hd; cbn [bind].
  destruct (get_call_type ci) as [ct|e] eqn:Ht; cbn [bind].
  - unfold SpecWords.exact_charge; destruct ct; cbn [SpecWords.base_cents SpecWords.rate_cents]; lia.
  - exact I.
Qed.

(** X6: the duration depends only on the times of day of the start and
    stop, never on their dates. *)
Theorem get_call_duration_time_of_day (ci ci' : CallInfo)
  (Hs : time_of_day_us (call_start ci') = time_of_day_us (call_start ci))
  (Hp : time_of_day_us (call_stop ci') = time_of_day_us (call_stop ci)) :
  get_call_duration ci' = get_call_duration ci.
Proof.
  rewrite !get_call_duration_seconds, !seconds_within_day_tod, Hs, Hp. reflexivity.
Qed.

Lemma get_call_duration_time_of_day_witness :
  time_of_day_us (call_start next_day_call_info) = time_of_day_us (call_start international_call_info) /\
  time_of_day_us (call_stop next_day_call_info) = time_of_day_us (call_stop international_call_info) /\
  get_call_duration next_day_call_info = get_call_duration international_call_info.
Proof.
  assert (Hs : time_of_day_us (call_start next_day_call_info)
               = time_of_day_us (call_start international_call_info)) by reflexivity.
  assert (Hp : time_of_day_us (call_stop next_day_call_info)
               = time_of_day_us (call_stop international_call_info)) by reflexivity.
  split; [exact Hs|]; split; [exact Hp|].
  exact (get_call_duration_time_of_day international_call_info next_day_call_info Hs Hp).
Defined.

(** X7: a call whose stop time of day is less than one second after its
    start time of day (a call of a whole number of days included) lasts
    0 minutes. *)
Theorem get_call_duration_under_one_second (ci : CallInfo)
  (H : 0 <= time_of_day_us (call_stop ci) - time_of_day_us (call_start ci) < 1000000) :
  get_call_duration ci = Ok 0.
Proof.
  rewrite get_call_duration_seconds, seconds_within_day_tod.
  rewrite (Z.div_small _ _ H). reflexivity.
Qed.

Lemma get_call_duration_under_one_second_witness :
  (0 <= time_of_day_us (call_stop day_long_call_info)
        - time_of_day_us (call_start day_long_call_info) < 1000000) /\
  get_call_duration day_long_call_info = Ok 0.
Proof.
  assert (H : 0 <= time_of_day_us (call_stop day_long_call_info)
                   - time_of_day_us (call_start day_long_call_info) < 1000000)
    by (vm_compute; split; congruence).
  split; [exact H | exact (get_call_duration_under_one_second day_long_call_info H)].
Defined.

(** X8: a call whose stop time of day is up to 59 seconds before its start
    time of day lasts 1440 minutes. *)
Theorem get_call_duration_stop_just_before_start (ci : CallInfo)
  (H : 0 < time_of_day_us (call_start ci) - time_of_day_us (call_stop ci) <= 59000000) :
  get_call_duration ci = Ok 1440.
Proof.
  rewrite get_call_duration_seconds, seconds_within_day_tod.
  set (x := time_of_day_us (call_stop ci) - time_of_day_us (call_start ci)).
  assert (Hq : -59 <= x / 1000000 <= -1).
  { split.
    - apply Z.div_le_lower_bound; lia.
    - apply Z.lt_succ_r. apply Z.div_lt_upper_bound; lia. }
  unfold SpecWords.ceil_div60. f_equal.
  rewrite (Z.mod_eq _ 86400) by lia.
  replace ((x / 1000000) / 86400) with (-1).
  - symmetry; apply Z.div_unique with (r := (x / 1000000 + 86400 + 59) - 60 * 1440); lia.
  - apply Z.div_unique with (r := x / 1000000 + 86400); lia.
Qed.

Lemma get_call_duration_stop_just_before_start_witness :
  (0 < time_of_day_us (call_start backwards_call_info)
       - time_of_day_us (call_stop backwards_call_info) <= 59000000) /\
  get_call_duration backwards_call_info = Ok 1440.
Proof.
  assert (H : 0 < time_of_day_us (call_start backwards_call_info)
                  - time_of_day_us (call_stop backwards_call_info) <= 59000000)
    by (vm_compute; split; congruence).
  split; [exact H | exact (get_call_duration_stop_just_before_start backwards_call_info H)].
Defined.

(** X9: [get_call_type] looks only at the first four characters of each
    number once its ['+'] are stripped: calls whose numbers agree there
    get the same type, or raise the same error. *)
Theorem get_call_type_prefix (ci ci' : CallInfo)
  (Ho : firstn 4 (strip_plus (origination_number ci))
        = firstn 4 (strip_plus (origination_number ci')))
  (Ht : firstn 4 (strip_plus (termination_number ci))
        = firstn 4 (strip_plus (termination_number ci'))) :
  get_call_type ci = get_call_type ci'.
Proof.
  apply PhoneNumber_init_prefix in Ho; apply PhoneNumber_init_prefix in Ht.
  unfold get_call_type.
  destruct (PhoneNumber_init (origination_number ci)) as [o|e],
           (PhoneNumber_init (origination_number ci')) as [o'|e']; try contradiction;
  cbn [bind].
  - destruct (PhoneNumber_init (termination_number ci)) as [t|f],
             (PhoneNumber_init (termination_number ci')) as [t'|f']; try contradiction;
    cbn [bind].
    + destruct Ho as [Hoc Hoa]; destruct Ht as [Htc Hta].
      rewrite Hoc, Hoa, Htc, Hta; reflexivity.
    + subst; reflexivity.
  - subst; reflexivity.
Qed.

Lemma get_call_type_prefix_witness :
  firstn 4 (strip_plus (origination_number international_call_info))
    = firstn 4 (strip_plus (origination_number other_subscriber_call_info)) /\
  firstn 4 (strip_plus (termination_number international_call_info))
    = firstn 4 (strip_plus (termination_number other_subscriber_call_info)) /\
  get_call_type international_call_info = get_call_type other_subscriber_call_info.
Proof.
  assert (Ho : firstn 4 (strip_plus (origination_number international_call_info))
               = firstn 4 (strip_plus (origination_number other_subscriber_call_info)))
    by (vm_compute; reflexivity).
  assert (Ht : firstn 4 (strip_plus (termination_number international_call_info))
               = firstn 4 (strip_plus (termination_number other_subscriber_call_info)))
    by (vm_compute; reflexivity).
  split; [exact Ho|]; split; [exact Ht|].
  exact (get_call_type_prefix _ _ Ho Ht).
Defined.

(** X10: reading the input skips its first line and turns each following
    line, in order, into one row: its first four comma-separated fields and
    its fifth field stripped of surrounding whitespace, any further fields
    being ignored; it raises [IndexError] exactly when some such line has
    fewer than five comma-separated fields. *)
Theorem read_rows_shape (text : pystr) :
  match read_rows text with
  | Ok rows =>
      Forall2 (fun line r => exists v0 v1 v2 v3 v4 rest,
                 split_on ","%char line = v0 :: v1 :: v2 :: v3 :: v4 :: rest /\
                 r = mk_row v0 v1 v2 v3 (py_strip v4))
              (skipn 1 (readlines text)) rows
  | Raise e =>
      e = IndexError /\
      Exists (fun line => List.length (split_on ","%char line) < 5)%nat (skipn 1 (readlines text))
  end.
Proof.
  unfold read_rows.
  generalize (skipn 1 (readlines text)) as lines.
  induction lines as [|line lines IH]; cbn [parse_rows].
  - constructor.
  - rewrite parse_row_eq.
    destruct (split_on ","%char line) as [|v0 [|v1 [|v2 [|v3 [|v4 vs]]]]] eqn:E;
      cbn [bind];
      try (split; [reflexivity | left; rewrite E; simpl; lia]).
    destruct (parse_rows lines) as [rows|e]; cbn [bind].
    + constructor; [|exact IH].
      exists v0, v1, v2, v3, v4, vs; split; [exact E | reflexivity].
    + destruct IH as [IH1 IH2]; split; [exact IH1 | right; exact IH2].
Qed.

(** X11: a file made of any header line followed by the comma-joined rows,
    one per line, reads back as exactly those rows, provided no field holds
    a comma or a newline and the last field has no surrounding whitespace. *)
Theorem read_rows_csv_text (header : pystr) (rows : list row)
  (Hh : ~ In nl header) (Hr : Forall plain_row rows) :
  read_rows (csv_text header rows) = Ok rows.
Proof.
  unfold read_rows, csv_text. rewrite readlines_app by exact Hh. cbn [skipn].
  induction Hr as [|r rows Hr Hrs IH]; [reflexivity|].
  destruct r as [a o t s p]; destruct Hr as [[Ha Ha'] [[Ho Ho'] [[Ht Ht'] [[Hs Hs'] [[Hp Hp'] Hst]]]]].
  cbn [r_account_number r_origination_number r_termination_number r_call_start r_call_stop] in *.
  cbn [map List.concat]. rewrite <- app_assoc; cbn [app].
  assert (Hline : ~ In nl (join_row (mk_row a o t s p))).
  { unfold join_row; cbn [r_account_number r_origination_number r_termination_number
      r_call_start r_call_stop].
    intros X.
    repeat match goal with
           | X : In _ (_ ++ _) |- _ => apply in_app_iff in X; destruct X as [X|X]
           | X : In _ (_ :: _) |- _ => destruct X as [X|X]
           end;
      first [contradiction | (unfold nl in X; discriminate X)]. }
  rewrite readlines_app by exact Hline. cbn [parse_rows].
  rewrite parse_row_eq. unfold join_row; cbn [r_account_number r_origination_number
      r_termination_number r_call_start r_call_stop].
  repeat (rewrite <- app_assoc || rewrite <- app_comm_cons).
  rewrite !split_on_app by assumption.
  rewrite split_on_nosep
    by (intros X; apply in_app_iff in X; destruct X as [X|[X|[]]];
        [exact (Hp X) | unfold nl in X; discriminate X]).
  cbn [bind]. rewrite py_strip_snoc_space, Hst by reflexivity.
  unfold join_row in IH; rewrite IH. reflexivity.
Qed.

Lemma read_rows_csv_text_witness :
  ~ In nl sample_header /\ Forall plain_row [sample_row] /\
  read_rows (csv_text sample_header [sample_row]) = Ok [sample_row].
Proof.
  assert (Hh : ~ In nl sample_header)
    by (vm_compute; intros X; repeat destruct X as [X|X]; try discriminate X; exact X).
  assert (Hr : Forall plain_row [sample_row]).
  { constructor; [|constructor].
    unfold plain_row, plain_field; vm_compute.
    repeat split; try reflexivity;
      intros X; repeat destruct X as [X|X]; try discriminate X; exact X. }
  split; [exact Hh|]; split; [exact Hr|].
  exact (read_rows_csv_text _ _ Hh Hr).
Defined.

(** X12: [str(bill)] splits at its commas into exactly eight fields: the
    account number, the six counters as [str] of integers, and the charge,
    provided the account number holds no comma. *)
Theorem bill_repr_fields (b : CustomerBill.t)
  (H : ~ In ","%char (list_ascii_of_string (CustomerBill.account_number b))) :
  split_on ","%char (bill_repr b) =
  [list_ascii_of_string (CustomerBill.account_number b);
   str_int (CustomerBill.minutes_international b);
   str_int (CustomerBill.num_international b);
   str_int (CustomerBill.minutes_domestic b);
   str_int (CustomerBill.num_domestic b);
   str_int (CustomerBill.minutes_local b);
   str_int (CustomerBill.num_local b);
   str_decimal_cents (CustomerBill.charge b)].
Proof.
  unfold bill_repr, comma; cbn [app].
  rewrite split_on_app by exact H.
  rewrite !split_on_app by apply (no_sep_not_in _ (str_int_no_sep _)).
  rewrite split_on_nosep by apply (no_sep_not_in _ (str_decimal_cents_no_sep _)).
  reflexivity.
Qed.

Lemma bill_repr_fields_witness :
  ~ In ","%char (list_ascii_of_string (CustomerBill.account_number sample_bill)) /\
  split_on ","%char (bill_repr sample_bill) =
  [list_ascii_of_string (CustomerBill.account_number sample_bill);
   str_int (CustomerBill.minutes_international sample_bill);
   str_int (CustomerBill.num_international sample_bill);
   str_int (CustomerBill.minutes_domestic sample_bill);
   str_int (CustomerBill.num_domestic sample_bill);
   str_int (CustomerBill.minutes_local sample_bill);
   str_int (CustomerBill.num_local sample_bill);
   str_decimal_cents (CustomerBill.charge sample_bill)].
Proof.
  assert (H : ~ In ","%char (list_ascii_of_string (CustomerBill.account_number sample_bill)))
    by (vm_compute; intros [X|[]]; discriminate X).
  split; [exact H | exact (bill_repr_fields sample_bill H)].
Defined.

(** X13: the output file reads back as the header line followed by one line
    [str(bill)] per bill, in order, provided no account number holds a
    newline. *)
Theorem write_output_lines (bills : list CustomerBill.t)
  (H : Forall (fun b => ~ In nl (list_ascii_of_string (CustomerBill.account_number b))) bills) :
  readlines (write_output bills) = headers :: map (fun b => bill_repr b ++ [nl]) bills.
Proof.
  unfold write_output.
  change headers with (headers_line ++ [nl]).
  rewrite <- app_assoc; cbn [app].
  rewrite readlines_app by exact headers_line_no_nl. f_equal.
  induction H as [|b bills Hb Hbs IH]; [reflexivity|].
  cbn [map List.concat]. rewrite <- app_assoc; cbn [app].
  rewrite readlines_app by exact (bill_repr_no_nl b Hb).
  rewrite IH; reflexivity.
Qed.

Lemma write_output_lines_witness :
  Forall (fun b => ~ In nl (list_ascii_of_string (CustomerBill.account_number b))) [sample_bill] /\
  readlines (write_output [sample_bill]) = headers :: map (fun b => bill_repr b ++ [nl]) [sample_bill].
Proof.
  assert (H : Forall (fun b => ~ In nl (list_ascii_of_string (CustomerBill.account_number b)))
                [sample_bill])
    by (constructor; [vm_compute; intros [X|[]]; discriminate X | constructor]).
  split; [exact H | exact (write_output_lines [sample_bill] H)].
Defined.

(** X14: [str(n)] of an integer is a ['-'] when [n] is negative followed by
    a non-empty string of decimal digits that denotes [|n|]. *)
Theorem str_int_digits (n : Z) :
  exists ds, str_int n = (if n <? 0 then ["-"%char] else []) ++ ds /\ ds <> [] /\
    Forall (fun c => is_digit c = true) ds /\ digits_value ds = Z.abs n.
Proof.
  exists (str_nat (Z.abs n)).
  destruct (str_nat_value (Z.abs n) (Z.abs_nonneg n)) as [Hv Hne].
  split; [|split; [exact Hne | split; [apply str_nat_digits | exact Hv]]].
  unfold str_int; destruct (n <? 0) eqn:E.
  - apply Z.ltb_lt in E. rewrite Z.abs_neq by lia. reflexivity.
  - apply Z.ltb_ge in E. rewrite Z.abs_eq by lia. reflexivity.
Qed.

(** X15: the charge column shows a ['-'] for a negative amount, then a
    non-empty integer part, a ['.'] and exactly two decimals, whose digits
    together denote the absolute amount in cents. *)
Theorem str_decimal_cents_digits (c : Z) :
  exists w f, str_decimal_cents c = (if c <? 0 then ["-"%char] else []) ++ w ++ "."%char :: f /\
    w <> [] /\ List.length f = 2%nat /\
    Forall (fun x => is_digit x = true) (w ++ f) /\ digits_value (w ++ f) = Z.abs c.
Proof.
  destruct (str_nat_value (Z.abs c) (Z.abs_nonneg c)) as [Hv Hne].
  pose proof (str_nat_digits (Z.abs c)) as Hd.
  unfold str_decimal_cents.
  set (ds := str_nat (Z.abs c)) in *.
  assert (HL : (1 <= List.length ds)%nat) by (destruct ds; [congruence | simpl; lia]).
  destruct (Z.of_nat (List.length ds) - 2 <=? 0) eqn:E.
  - apply Z.leb_le in E.
    exists ["0"%char], (repeat "0"%char (Z.to_nat (- (Z.of_nat (List.length ds) - 2))) ++ ds).
    split; [reflexivity|]. split; [discriminate|]. split.
    + rewrite length_app, repeat_length. lia.
    + split.
      * constructor; [reflexivity|]. apply Forall_app; split; [|exact Hd].
        apply Forall_forall; intros x Hx; apply repeat_spec in Hx; subst; reflexivity.
      * change (["0"%char] ++ repeat "0"%char (Z.to_nat (- (Z.of_nat (List.length ds) - 2))) ++ ds)
          with (repeat "0"%char (S (Z.to_nat (- (Z.of_nat (List.length ds) - 2)))) ++ ds).
        rewrite digits_value_zeros; exact Hv.
  - apply Z.leb_gt in E.
    set (k := Z.to_nat (Z.of_nat (List.length ds) - 2)).
    exists (firstn k ds), (skipn k ds).
    split; [reflexivity|]. split.
    + destruct ds as [|x ds']; [simpl in HL; lia|].
      destruct k as [|k'] eqn:Ek; [unfold k in Ek; lia | discriminate].
    + split; [rewrite length_skipn; unfold k; lia|].
      rewrite firstn_skipn. split; [exact Hd | exact Hv].
Qed.
